(** * study-notifier: the completion-detection engine of [fetch_data.py]

    A shallow embedding of the four components of [fetch_data.py]
    (formatting inspector, text marker analyzer, question extractor,
    notification composer) and the properties its specification states
    about them. *)

From Stdlib Require Import ZArith String Ascii List Sorted Floats DecimalString.
From stdpp Require Import base option list gmap.

Open Scope Z_scope.

(** ** Python values *)

(** A Python [str] is a sequence of Unicode code points; [len] counts
    code points. *)
Definition pychar := N.
Definition pystr := list pychar.

(** An ASCII literal of the source, as code points. *)
Definition lit (s : string) : pystr :=
  map N_of_ascii (list_ascii_of_string s).
Arguments lit : simpl never.

(** The values a parsed JSON document is made of.  A [dict] has [str] keys. *)
#[warnings="-register-all"]
Inductive pyval : Type :=
  | PNone
  | PBool (b : bool)
  | PInt (z : Z)
  | PFloat (f : float)
  | PStr (s : pystr)
  | PList (l : list pyval)
  | PDict (d : gmap pystr pyval).

(** The exceptions the modelled code can raise. *)
Inductive exn : Type :=
  | KeyError (key : pyval)
  | IndexError
  | TypeError
  | AttributeError
  | ValueError (msg : pystr).

(** A computation that returns a value or raises. *)
Inductive res (A : Type) : Type :=
  | Ok (a : A)
  | Raise (e : exn).
Arguments Ok {A} a.
Arguments Raise {A} e.

#[global] Instance res_ret : MRet res := fun A a => Ok a.
#[global] Instance res_bind : MBind res := fun A B k m =>
  match m with
  | Ok a => k a
  | Raise e => Raise e
  end.

(** [bool(v)]: Python truthiness. *)
Definition py_truthy (v : pyval) : bool :=
  match v with
  | PNone => false
  | PBool b => b
  | PInt z => negb (z =? 0)
  | PFloat f => negb (PrimFloat.eqb f 0%float)
  | PStr s => negb (Nat.eqb (length s) 0)
  | PList l => negb (Nat.eqb (length l) 0)
  | PDict d => negb (Nat.eqb (size d) 0)
  end.

(** [v.get(key, default)]: only a dict has the method. *)
Definition py_get (v : pyval) (key : pystr) (dflt : pyval) : res pyval :=
  match v with
  | PDict d => Ok (default dflt (d !! key))
  | _ => Raise AttributeError
  end.

(** [l[i]] on a sequence: a negative index counts from the end. *)
Definition py_index {A} (l : list A) (i : Z) : option A :=
  if 0 <=? i then l !! Z.to_nat i
  else if 0 <=? Z.of_nat (length l) + i then l !! Z.to_nat (Z.of_nat (length l) + i)
  else None.

(** [v[key]] with a [str] key. *)
Definition py_getitem_str (v : pyval) (key : pystr) : res pyval :=
  match v with
  | PDict d =>
      match d !! key with
      | Some x => Ok x
      | None => Raise (KeyError (PStr key))
      end
  | _ => Raise TypeError
  end.

(** [v[i]] with an [int] index; a JSON dict has no [int] key. *)
Definition py_getitem_int (v : pyval) (i : Z) : res pyval :=
  match v with
  | PList l =>
      match py_index l i with
      | Some x => Ok x
      | None => Raise IndexError
      end
  | PStr s =>
      match py_index s i with
      | Some c => Ok (PStr [c])
      | None => Raise IndexError
      end
  | PDict _ => Raise (KeyError (PInt i))
  | _ => Raise TypeError
  end.

(** [len(v)]. *)
Definition py_len (v : pyval) : res Z :=
  match v with
  | PStr s => Ok (Z.of_nat (length s))
  | PList l => Ok (Z.of_nat (length l))
  | PDict d => Ok (Z.of_nat (size d))
  | _ => Raise TypeError
  end.

(** The items a [for] loop over [v] visits: the elements of a list, the
    characters of a string, the keys of a dict. *)
Definition py_iter (v : pyval) : res (list pyval) :=
  match v with
  | PList l => Ok l
  | PStr s => Ok (map (fun c => PStr [c]) s)
  | PDict d => Ok (map (fun kv => PStr (fst kv)) (map_to_list d))
  | _ => Raise TypeError
  end.

(** [v == s] for a [str] [s]. *)
Definition py_eq_str (v : pyval) (s : pystr) : bool :=
  match v with
  | PStr t => bool_decide (t = s)
  | _ => false
  end.

(** ** Formatting Inspector: [check_cell_strikethrough] *)

(** The [for run in text_format_runs] loop. *)
Fixpoint text_format_runs_loop (runs : list pyval) : res bool :=
  match runs with
  | [] => Ok false
  | run :: rest =>
      run_format ← py_get run (lit "format") (PDict ∅);
      flag ← py_get run_format (lit "strikethrough") (PBool false);
      if py_truthy flag then Ok true else text_format_runs_loop rest
  end.

(** The three checks on a located cell.  [Ok true] is [return True];
    [Ok false] is falling out of the checks. *)
Definition cell_checks (cell : pyval) : res bool :=
  effective_format ← py_get cell (lit "effectiveFormat") (PDict ∅);
  text_format ← py_get effective_format (lit "textFormat") (PDict ∅);
  flag ← py_get text_format (lit "strikethrough") (PBool false);
  if py_truthy flag then Ok true else
  user_format ← py_get cell (lit "userEnteredFormat") (PDict ∅);
  user_text_format ← py_get user_format (lit "textFormat") (PDict ∅);
  user_flag ← py_get user_text_format (lit "strikethrough") (PBool false);
  if py_truthy user_flag then Ok true else
  text_format_runs ← py_get cell (lit "textFormatRuns") (PList []);
  runs ← py_iter text_format_runs;
  text_format_runs_loop runs.

(** The body of [if sheet['properties']['title'] == sheet_name:], up to
    the [break]. *)
Definition sheet_body (sheet : pyval) (row_index col_index : Z) : res bool :=
  grid_data ← py_get sheet (lit "data") (PList []);
  if py_truthy grid_data then
    n ← py_len grid_data;
    if 0 <? n then
      grid0 ← py_getitem_int grid_data 0;
      row_data ← py_get grid0 (lit "rowData") (PList []);
      n_rows ← py_len row_data;
      if row_index <? n_rows then
        row ← py_getitem_int row_data row_index;
        values ← py_get row (lit "values") (PList []);
        n_values ← py_len values;
        if col_index <? n_values then
          cell ← py_getitem_int values col_index;
          cell_checks cell
        else Ok false
      else Ok false
    else Ok false
  else Ok false.

(** The [for sheet in sheets] loop: the first sheet with the title is
    inspected, then the loop breaks. *)
Fixpoint sheets_loop (sheet_name : pystr) (row_index col_index : Z)
    (sheets : list pyval) : res bool :=
  match sheets with
  | [] => Ok false
  | sheet :: rest =>
      properties ← py_getitem_str sheet (lit "properties");
      title ← py_getitem_str properties (lit "title");
      if py_eq_str title sheet_name
      then sheet_body sheet row_index col_index
      else sheets_loop sheet_name row_index col_index rest
  end.

(** The [try] block. *)
Definition check_cell_strikethrough_try (formatting_data : pyval)
    (sheet_name : pystr) (row_index col_index : Z) : res bool :=
  sheets ← py_get formatting_data (lit "sheets") (PList []);
  items ← py_iter sheets;
  sheets_loop sheet_name row_index col_index items.

(** [except Exception: return False]. *)
Definition check_cell_strikethrough (formatting_data : pyval)
    (sheet_name : pystr) (row_index col_index : Z) : bool :=
  match check_cell_strikethrough_try formatting_data sheet_name row_index col_index with
  | Ok b => b
  | Raise _ => false
  end.

(** *** The document as the specification describes it

    The data model of the specification: a document holds sheets, a sheet
    holds grid data, whose first grid holds rows, a row holds cells.  The
    definitions below navigate that structure without any default or
    exception; they are used to state what the inspector is asked. *)

Definition as_dict (v : pyval) : option (gmap pystr pyval) :=
  match v with PDict d => Some d | _ => None end.

Definition as_list (v : pyval) : option (list pyval) :=
  match v with PList l => Some l | _ => None end.

Definition sheet_title (sheet : pyval) : option pyval :=
  sd ← as_dict sheet;
  properties ← sd !! lit "properties";
  pd ← as_dict properties;
  pd !! lit "title".

(** The first sheet entry whose title is [sheet_name], every entry before it
    carrying a title. *)
Fixpoint find_sheet (sheet_name : pystr) (sheets : list pyval) : option pyval :=
  match sheets with
  | [] => None
  | sheet :: rest =>
      title ← sheet_title sheet;
      if py_eq_str title sheet_name then Some sheet else find_sheet sheet_name rest
  end.

(** The rows recorded for a sheet entry: the row data of its first grid. *)
Definition sheet_rows (sheet : pyval) : option (list pyval) :=
  sd ← as_dict sheet;
  data ← sd !! lit "data";
  grids ← as_list data;
  grid0 ← head grids;
  gd ← as_dict grid0;
  row_data ← gd !! lit "rowData";
  as_list row_data.

(** The cell records of a row. *)
Definition row_cells (row : pyval) : option (list pyval) :=
  rd ← as_dict row;
  values ← rd !! lit "values";
  as_list values.

(** The cell record at (row, column) of a sheet entry. *)
Definition sheet_cell (sheet : pyval) (row_index col_index : Z) : option pyval :=
  rows ← sheet_rows sheet;
  row ← py_index rows row_index;
  cells ← row_cells row;
  py_index cells col_index.

(** The entry of the named sheet in a document. *)
Definition doc_sheet (doc : pyval) (sheet_name : pystr) : option pyval :=
  d ← as_dict doc;
  sheets ← d !! lit "sheets";
  entries ← as_list sheets;
  find_sheet sheet_name entries.

(** The cell record at (row, column) of the named sheet of a document:
    [None] when the sheet is absent, an index is out of bounds or a key on
    the way is missing. *)
Definition doc_cell (doc : pyval) (sheet_name : pystr) (row_index col_index : Z)
    : option pyval :=
  sheet ← doc_sheet doc sheet_name;
  sheet_cell sheet row_index col_index.

(** The flag found by following [path] through nested mappings; a missing
    key means no flag. *)
Fixpoint flag_at (path : list pystr) (v : pyval) : bool :=
  match path with
  | [] => py_truthy v
  | key :: rest =>
      match v with
      | PDict d =>
          match d !! key with
          | Some x => flag_at rest x
          | None => false
          end
      | _ => false
      end
  end.

(** The three sources of the strikethrough signal of a cell record. *)
Definition effective_flag (cell : pyval) : bool :=
  flag_at [lit "effectiveFormat"; lit "textFormat"; lit "strikethrough"] cell.

Definition user_entered_flag (cell : pyval) : bool :=
  flag_at [lit "userEnteredFormat"; lit "textFormat"; lit "strikethrough"] cell.

Definition format_runs (cell : pyval) : list pyval :=
  match cell with
  | PDict d =>
      match d !! lit "textFormatRuns" with
      | Some (PList runs) => runs
      | _ => []
      end
  | _ => []
  end.

Definition run_flag (run : pyval) : bool :=
  flag_at [lit "format"; lit "strikethrough"] run.

(** What the chained [.get] lookups of the inspector can read: each key is
    optional; where present, a format and its text format are mappings, and
    a format run is a mapping whose format, where present, is a mapping. *)
Definition opt_mapping (inner : gmap pystr pyval -> bool) (o : option pyval) : bool :=
  match o with
  | None => true
  | Some (PDict d) => inner d
  | Some _ => false
  end.

Definition is_cell_format (o : option pyval) : bool :=
  opt_mapping (fun d => opt_mapping (fun _ => true) (d !! lit "textFormat")) o.

Definition is_format_run (run : pyval) : bool :=
  match run with
  | PDict d => opt_mapping (fun _ => true) (d !! lit "format")
  | _ => false
  end.

(** [cell.get(key, {}).get('textFormat', {}).get('strikethrough', False)]
    evaluates on [cell]: the cell is a mapping and, where present, the
    format under [key] and its text format are mappings. *)
Definition format_readable (key : pystr) (cell : pyval) : bool :=
  match cell with
  | PDict d => is_cell_format (d !! key)
  | _ => false
  end.

(** A dict display of the source with literal keys. *)
Definition dict_of (l : list (string * pyval)) : pyval :=
  PDict (list_to_map (map (fun kv => (lit (fst kv), snd kv)) l)).

(** ** Strings *)

(** [str.isspace] of one character: the white space of Unicode. *)
Definition py_isspace (c : pychar) : bool :=
  ((9 <=? c) && (c <=? 13) || (28 <=? c) && (c <=? 32)
   || (c =? 0x85) || (c =? 0xA0) || (c =? 0x1680)
   || (0x2000 <=? c) && (c <=? 0x200A)
   || (c =? 0x2028) || (c =? 0x2029) || (c =? 0x202F) || (c =? 0x205F)
   || (c =? 0x3000))%N.

Fixpoint lstrip (s : pystr) : pystr :=
  match s with
  | [] => []
  | c :: rest => if py_isspace c then lstrip rest else s
  end.

(** [s.strip()]. *)
Definition strip (s : pystr) : pystr :=
  reverse (lstrip (reverse (lstrip s))).

Fixpoint is_prefix (p s : pystr) : bool :=
  match p, s with
  | [], _ => true
  | _ :: _, [] => false
  | a :: p', b :: s' => (a =? b)%N && is_prefix p' s'
  end.

(** [sub in s]. *)
Fixpoint str_in (sub s : pystr) : bool :=
  is_prefix sub s
  || match s with
     | [] => false
     | _ :: rest => str_in sub rest
     end.

(** The scan of [s.count(sub)] for a non-empty [sub]: [skip] characters of
    the last occurrence are still to be stepped over. *)
Fixpoint count_scan (sub : pystr) (skip : nat) (s : pystr) : nat :=
  match s with
  | [] => 0
  | _ :: rest =>
      match skip with
      | S k => count_scan sub k rest
      | O =>
          if is_prefix sub s
          then S (count_scan sub (length sub - 1) rest)
          else count_scan sub 0 rest
      end
  end.

(** [s.count(sub)]: the occurrences that do not overlap, from the left. *)
Definition str_count (sub s : pystr) : nat :=
  match sub with
  | [] => S (length s)
  | _ => count_scan sub 0 s
  end.

(** [str(i)] for an [int]. *)
Definition str_of_Z (i : Z) : pystr :=
  lit (NilZero.string_of_int (Z.to_int i)).

(** [str.upper] follows the case mapping of the Unicode database of the
    Python runtime; it is a parameter of the model. *)
Class StrUpper := str_upper : pystr -> pystr.

(** ** Text Marker Analyzer: [analyze_text_with_manual_indicators] *)

Definition completion_indicators : list pystr :=
  [lit "[DONE]"; lit "[COMPLETED]"; lit "[FINISHED]"; lit "[COMPLETE]";
   [0x201A; 0xFA; 0xEC]%N; [0x201A; 0xFA; 0xF3]%N;
   lit "DONE:"; lit "COMPLETED:"; lit "FINISHED:";
   lit "(DONE)"; lit "(COMPLETED)"; lit "(FINISHED)";
   lit "- DONE"; lit "- COMPLETED"; lit "- FINISHED"].

Definition is_str (v : pyval) : bool :=
  match v with PStr _ => true | _ => false end.

Definition analyze_text_with_manual_indicators `{StrUpper} (text : pyval) : bool :=
  if negb (py_truthy text) || negb (is_str text) then false
  else
    match text with
    | PStr t =>
        let text_upper := strip (str_upper t) in
        if existsb (fun indicator => str_in indicator text_upper) completion_indicators
        then true
        else if (2 <=? str_count (lit "~~") t)%nat then true
        else false
    | _ => false
    end.

(** ** Question Extractor: [parse_group4_questions] *)

Inductive source_tag : Type := api_formatting | manual_indicators.

Record question : Type := Question {
  row_number : Z;
  text : pystr;
  is_crossed_out : bool;
  formatting_source : source_tag
}.

Inductive status_tag : Type := success | error.

(** The result dict.  A key that only some of the [return] statements set
    is an optional field. *)
Record result : Type := Result {
  status : status_tag;
  message : option pystr;
  timestamp : pystr;
  sheet_url : option pystr;
  group4_column_index : option Z;
  total_questions : Z;
  done_count : option Z;
  todo_count : option Z;
  has_new_questions : bool;
  done_questions : list question;
  todo_questions : list question;
  all_questions : option (list question)
}.

(** The sheet grid: rows of cell texts, row 0 the header. *)
Definition grid := list (list pystr).

(** What the spreadsheet source gives to the [try] block: an exception that
    escapes with text [str(e)], or the pair that
    [get_sheet_data_with_formatting] returns, whose first component is
    [None] when the source failed. *)
Inductive source_outcome : Type :=
  | SourceRaised (str_e : pystr)
  | SourceData (values : option grid) (formatting_data : pyval).

(** The evaluations of the two detectors, in the order they happen. *)
Inductive detector_call : Type :=
  | InspectorCall (row_index col_index : Z) (answer : bool)
  | AnalyzerCall (cell_content : pystr) (answer : bool).

Definition error_result (now msg : pystr) : result :=
  {| status := error;
     message := Some msg;
     timestamp := now;
     sheet_url := None;
     group4_column_index := None;
     total_questions := 0;
     done_count := None;
     todo_count := None;
     has_new_questions := false;
     done_questions := [];
     todo_questions := [];
     all_questions := None |}.

(** [for i, header in enumerate(header_row)] with its [break]. *)
Fixpoint find_group4_column (i : nat) (header_row : list pystr) : option nat :=
  match header_row with
  | [] => None
  | header :: rest =>
      if py_truthy (PStr header) && str_in (lit "Group4") header
      then Some i
      else find_group4_column (S i) rest
  end.

(** The lists that the row loop fills; [done_acc] and [todo_acc] are its
    [done_questions] and [todo_questions]. *)
Record loop_state : Type := LoopState {
  group4_data : list question;
  done_acc : list question;
  todo_acc : list question;
  calls : list detector_call
}.

(** One iteration of [for row_index in range(1, len(values))]. *)
Definition visit_row `{StrUpper} (formatting_data : pyval) (values : grid)
    (group4_column_index : nat) (st : loop_state) (row_index : nat) : loop_state :=
  match values !! row_index with
  | None => st
  | Some row =>
      if negb (group4_column_index <? length row)%nat then st else
      match row !! group4_column_index with
      | None => st
      | Some cell_content =>
          if py_truthy (PStr cell_content) && py_truthy (PStr (strip cell_content))
          then
            let r := Z.of_nat row_index in
            let c := Z.of_nat group4_column_index in
            let inspected := check_cell_strikethrough formatting_data (lit "Questions") r c in
            let has_strikethrough :=
              if negb inspected
              then analyze_text_with_manual_indicators (PStr cell_content)
              else inspected in
            let fallback :=
              if negb inspected
              then [AnalyzerCall cell_content has_strikethrough]
              else [] in
            let rechecked := check_cell_strikethrough formatting_data (lit "Questions") r c in
            let question_data :=
              {| row_number := r + 1;
                 text := strip cell_content;
                 is_crossed_out := has_strikethrough;
                 formatting_source :=
                   if rechecked then api_formatting else manual_indicators |} in
            {| group4_data := group4_data st ++ [question_data];
               done_acc :=
                 if has_strikethrough then done_acc st ++ [question_data]
                 else done_acc st;
               todo_acc :=
                 if has_strikethrough then todo_acc st
                 else todo_acc st ++ [question_data];
               calls := calls st ++ [InspectorCall r c inspected] ++ fallback
                          ++ [InspectorCall r c rechecked] |}
          else st
      end
  end.

Definition rows_loop `{StrUpper} (formatting_data : pyval) (values : grid)
    (group4_column_index : nat) : loop_state :=
  fold_left (visit_row formatting_data values group4_column_index)
    (seq 1 (length values - 1))
    {| group4_data := []; done_acc := []; todo_acc := []; calls := [] |}.

Definition len {A} (l : list A) : Z := Z.of_nat (length l).

(** [parse_group4_questions]; [now] is [datetime.now().isoformat()]. *)
Definition parse_group4_questions `{StrUpper} (now : pystr) (url : pystr)
    (credentials_json : option pystr) (source : source_outcome) : result :=
  if negb (py_truthy (from_option PStr PNone credentials_json))
  then error_result now (lit "Google credentials required for formatting detection")
  else
    match source with
    | SourceRaised str_e => error_result now (lit "Error accessing sheet: " ++ str_e)
    | SourceData None _ | SourceData (Some []) _ =>
        error_result now (lit "No data found in Questions sheet")
    | SourceData (Some ((header_row :: _) as values)) formatting_data =>
        match find_group4_column 0 header_row with
        | None => error_result now (lit "Group 4 column not found")
        | Some col =>
            let st := rows_loop formatting_data values col in
            {| status := success;
               message := None;
               timestamp := now;
               sheet_url := Some url;
               group4_column_index := Some (Z.of_nat col + 1);
               total_questions := len (group4_data st);
               done_count := Some (len (done_acc st));
               todo_count := Some (len (todo_acc st));
               has_new_questions := 0 <? len (todo_acc st);
               done_questions := done_acc st;
               todo_questions := todo_acc st;
               all_questions := Some (group4_data st) |}
        end
    end.

(** The inputs on which no column can be read: the source raised, it gave
    no data, or no header of row 0 names the column. *)
Definition source_unusable (source : source_outcome) : Prop :=
  match source with
  | SourceRaised _ => True
  | SourceData None _ => True
  | SourceData (Some values) _ => (values !! 0%nat) ≫= find_group4_column 0 = None
  end.

(** The detector evaluations of one run of the extractor. *)
Definition detector_calls `{StrUpper} (source : source_outcome) : list detector_call :=
  match source with
  | SourceData (Some ((header_row :: _) as values)) formatting_data =>
      match find_group4_column 0 header_row with
      | Some col => calls (rows_loop formatting_data values col)
      | None => []
      end
  | _ => []
  end.

(** ** Notification Composer: [send_discord_notification] *)

Record field : Type := Field {
  name : pystr;
  value : pystr;
  inline : bool
}.

Record embed : Type := Embed {
  embed_title : option pystr;
  embed_description : option pystr;
  embed_color : Z;
  embed_timestamp : option pystr;
  embed_footer : option pystr;
  embed_fields : list field
}.

Record payload : Type := Payload {
  embeds : list embed;
  content : option pystr
}.

(** Truthiness of a list of records. *)
Definition list_truthy {A} (l : list A) : bool := negb (Nat.eqb (length l) 0).

(** [result[key]] for a key that a result may lack. *)
Definition key {A} (k : string) (o : option A) : res A :=
  match o with
  | Some a => Ok a
  | None => Raise (KeyError (PStr (lit k)))
  end.

Definition red : Z := 0xFF0000.
Definition orange : Z := 0xFF9900.
Definition green : Z := 0x00FF00.
Definition blue : Z := 0x0099FF.

(** The embed color, by status. *)
Definition select_color (result : result) : res Z :=
  match status result with
  | error => Ok red
  | success =>
      if has_new_questions result then Ok orange
      else
        n ← key "todo_count" (todo_count result);
        if n =? 0 then Ok green else Ok blue
  end.

(** [q['text'][:60] + ('...' if len(q['text']) > 60 else '')]. *)
Definition trimmed_text (q : question) : pystr :=
  take 60 (text q) ++ (if 60 <? len (text q) then lit "..." else []).

(** The loop over [result['done_questions'][-3:]]. *)
Definition done_text (done : list question) : pystr :=
  fold_left (fun acc q => acc ++ lit "~~" ++ trimmed_text q ++ lit "~~" ++ [10%N])
    (drop (length done - 3) done) [].

Definition check_mark : pystr := [0x201A; 0xFA; 0xD6]%N.
Definition memo_glyph : pystr := [0xF8FF; 0xFC; 0xEC; 0xF9]%N.
Definition chart_glyph : pystr := [0xF8FF; 0xFC; 0xEC; 0xE4]%N.

Definition recently_completed_name : pystr := check_mark ++ lit " Recently Completed".

Definition main_embed (color : Z) (result : result) : res embed :=
  match status result with
  | success =>
      status_emoji ←
        (if has_new_questions result then Ok [0xF8FF; 0xFC; 0xDC; 0xEF]%N
         else
           n ← key "todo_count" (todo_count result);
           Ok (if n =? 0 then check_mark else chart_glyph));
      done ← key "done_count" (done_count result);
      todo ← key "todo_count" (todo_count result);
      let summary :=
        {| name := chart_glyph ++ lit " Summary";
           value := lit "**Total Questions:** " ++ str_of_Z (total_questions result)
                    ++ [10%N] ++ lit "**" ++ check_mark ++ lit " Done:** " ++ str_of_Z done
                    ++ [10%N] ++ lit "**" ++ memo_glyph ++ lit " Todo:** " ++ str_of_Z todo;
           inline := true |} in
      alert ←
        (if has_new_questions result
         then
           n ← key "todo_count" (todo_count result);
           Ok [{| name := [0xF8FF; 0xFC; 0xF6; 0xAE]%N ++ lit " Alert";
                  value := lit "**" ++ str_of_Z n ++ lit " question(s) need attention!**";
                  inline := false |}]
         else Ok []);
      let recently :=
        if list_truthy (done_questions result)
        then
          let shown := done_text (done_questions result) in
          [{| name := recently_completed_name;
              value := if py_truthy (PStr shown) then shown else lit "None";
              inline := false |}]
        else [] in
      Ok {| embed_title := Some ([0xF8FF; 0xFC; 0xEC; 0xE3]%N ++ lit " Group 4 Questions Update");
            embed_description := Some (status_emoji ++ lit " **Status Update**");
            embed_color := color;
            embed_timestamp := Some (timestamp result);
            embed_footer := Some (lit "Questions Parser Bot");
            embed_fields := alert ++ [summary] ++ recently |}
  | error =>
      Ok {| embed_title := Some ([0xF8FF; 0xFC; 0xEC; 0xE3]%N ++ lit " Group 4 Questions Update");
            embed_description := Some ([0x201A; 0xF9; 0xE5]%N ++ lit " **Error occurred**");
            embed_color := color;
            embed_timestamp := Some (timestamp result);
            embed_footer := Some (lit "Questions Parser Bot");
            embed_fields :=
              [{| name := lit "Error Message";
                  value := default (lit "Unknown error") (message result);
                  inline := false |}] |}
  end.

(** [enumerate(l, start)]. *)
Fixpoint enumerate {A} (start : Z) (l : list A) : list (Z * A) :=
  match l with
  | [] => []
  | x :: rest => (start, x) :: enumerate (start + 1) rest
  end.

(** [f"{i}. {q['text']}\n"]. *)
Definition question_line (iq : Z * question) : pystr :=
  str_of_Z (fst iq) ++ lit ". " ++ text (snd iq) ++ [10%N].

Definition todo_embed (color : Z) (count : Z) (todo_text : pystr) : embed :=
  {| embed_title := None;
     embed_description := None;
     embed_color := color;
     embed_timestamp := None;
     embed_footer := None;
     embed_fields :=
       [{| name := memo_glyph ++ lit " Todo Questions (" ++ str_of_Z count ++ lit ")";
           value := todo_text;
           inline := false |}] |}.

Record todo_state : Type := TodoState {
  closed_embeds : list embed;
  todo_text : pystr;
  questions_in_current_embed : Z;
  embed_count : Z
}.

(** One iteration of [for i, q in enumerate(result['todo_questions'], 1)]. *)
Definition todo_step (color : Z) (st : todo_state) (iq : Z * question) : todo_state :=
  let line := question_line iq in
  if 1000 <? len (todo_text st ++ line)
  then
    {| closed_embeds := closed_embeds st ++ [todo_embed color (embed_count st) (todo_text st)];
       todo_text := line;
       questions_in_current_embed := questions_in_current_embed st + 1;
       embed_count := embed_count st + 1 |}
  else
    {| closed_embeds := closed_embeds st;
       todo_text := todo_text st ++ line;
       questions_in_current_embed := questions_in_current_embed st + 1;
       embed_count := embed_count st |}.

(** The embeds that carry the todo entries. *)
Definition todo_embeds (color : Z) (result : result) : res (list embed) :=
  match status result with
  | success =>
      if list_truthy (todo_questions result)
      then
        let st :=
          fold_left (todo_step color) (enumerate 1 (todo_questions result))
            {| closed_embeds := []; todo_text := [];
               questions_in_current_embed := 0; embed_count := 1 |} in
        if py_truthy (PStr (todo_text st))
        then
          count ← (if 1 <? embed_count st then Ok (embed_count st)
                   else key "todo_count" (todo_count result));
          Ok (closed_embeds st ++ [todo_embed color count (todo_text st)])
        else Ok (closed_embeds st)
      else Ok []
  | error => Ok []
  end.

(** The webhook payload that [send_discord_notification] builds. *)
Definition build_payload (result : result) : res payload :=
  color ← select_color result;
  main ← main_embed color result;
  todos ← todo_embeds color result;
  Ok {| embeds := main :: todos;
        content :=
          if has_new_questions result && (3 <? default 0 (todo_count result))
          then Some (lit "@here Multiple questions need attention!")
          else None |}.

(** [send_discord_notification]; [post] is the webhook request, [true] when
    it went through. *)
Definition send_discord_notification (post : payload -> bool)
    (webhook_url : pystr) (result : result) : bool :=
  if negb (py_truthy (PStr webhook_url)) then false
  else
    match build_payload result with
    | Ok p => post p
    | Raise _ => false
    end.

(** The values of the fields of a list of embeds. *)
Definition block_values (es : list embed) : list pystr :=
  flat_map (fun e => map value (embed_fields e)) es.

(** The values of the todo fields, block by block. *)
Definition todo_blocks (result : result) : list pystr :=
  match build_payload result with
  | Ok p => block_values (tail (embeds p))
  | Raise _ => []
  end.

(** The summary that [main] writes before it sends the notification. *)
Record summary : Type := Summary {
  summary_status : status_tag;
  summary_timestamp : pystr;
  summary_has_new_questions : bool;
  summary_todo_count : Z;
  summary_done_count : Z;
  summary_total_questions : Z
}.

Definition main_summary (result : result) : res summary :=
  todo ← key "todo_count" (todo_count result);
  done ← key "done_count" (done_count result);
  Ok {| summary_status := status result;
        summary_timestamp := timestamp result;
        summary_has_new_questions := has_new_questions result;
        summary_todo_count := todo;
        summary_done_count := done;
        summary_total_questions := total_questions result |}.

(** ** Sample documents *)

(** A document with one sheet ["Questions"] whose grid has a header row
    without cells and one data row holding [cell]. *)
Definition one_cell_document (cell : pyval) : pyval :=
  dict_of
    [("sheets",
      PList [dict_of
        [("properties", dict_of [("title", PStr (lit "Questions"))]);
         ("data", PList [dict_of
            [("rowData", PList [dict_of []; dict_of [("values", PList [cell])]])]])]])]%string.

(** A cell struck through by its user-entered format only: the keys
    [effectiveFormat] and [textFormatRuns] are missing. *)
Definition user_struck_cell : pyval :=
  dict_of [("userEnteredFormat",
            dict_of [("textFormat", dict_of [("strikethrough", PBool true)])])]%string.

(** A cell with no format key at all. *)
Definition plain_cell : pyval := dict_of [].

(** A case mapping for ASCII letters, to run the model on sample texts. *)
Definition ascii_upper : StrUpper :=
  map (fun c => if ((97 <=? c) && (c <=? 122))%N then (c - 32)%N else c).

(** ** The extraction as the specification describes it *)

(** The target-column cell of a grid row, when the column is in bounds. *)
Definition data_cell (values : grid) (col row_index : nat) : option pystr :=
  row ← values !! row_index;
  row !! col.

(** The record of a cell: the trimmed text, the 1-indexed row, the
    inspector's answer first and the analyzer's as a fallback. *)
Definition detected_record `{StrUpper} (doc : pyval) (col row_index : nat)
    (cell : pystr) : question :=
  let inspected :=
    check_cell_strikethrough doc (lit "Questions") (Z.of_nat row_index) (Z.of_nat col) in
  {| row_number := Z.of_nat row_index + 1;
     text := strip cell;
     is_crossed_out :=
       if inspected then true else analyze_text_with_manual_indicators (PStr cell);
     formatting_source := if inspected then api_formatting else manual_indicators |}.

(** The record of a grid row, when its cell is in bounds and trims to a
    non-empty text. *)
Definition record_at `{StrUpper} (doc : pyval) (values : grid) (col row_index : nat)
    : option question :=
  cell ← data_cell values col row_index;
  if negb (bool_decide (strip cell = []))
  then Some (detected_record doc col row_index cell)
  else None.

(** The detector evaluations of a run, cell by cell: the inspector comes
    first, the analyzer follows only an inspector that answered [False],
    and the inspector is asked again for the provenance tag. *)
Inductive detection_trace `{StrUpper} (doc : pyval) : list detector_call -> Prop :=
  | trace_done : detection_trace doc []
  | trace_formatting r c rest :
      check_cell_strikethrough doc (lit "Questions") r c = true ->
      detection_trace doc rest ->
      detection_trace doc (InspectorCall r c true :: InspectorCall r c true :: rest)
  | trace_fallback r c cell rest :
      check_cell_strikethrough doc (lit "Questions") r c = false ->
      detection_trace doc rest ->
      detection_trace doc
        (InspectorCall r c false
         :: AnalyzerCall cell (analyze_text_with_manual_indicators (PStr cell))
         :: InspectorCall r c false :: rest).

(** The calls that one row adds. *)
Definition calls_at `{StrUpper} (doc : pyval) (values : grid) (col i : nat) : list detector_call :=
  match record_at doc values col i, data_cell values col i with
  | Some q, Some cell =>
      let b := check_cell_strikethrough doc (lit "Questions") (Z.of_nat i) (Z.of_nat col) in
      InspectorCall (Z.of_nat i) (Z.of_nat col) b
      :: (if b then []
          else [AnalyzerCall cell (analyze_text_with_manual_indicators (PStr cell))])
      ++ [InspectorCall (Z.of_nat i) (Z.of_nat col) b]
  | _, _ => []
  end.

(** ** Sample runs *)

(** A grid whose header names the column; row 2 lacks the column, row 3
    holds white space only. *)
Definition sample_grid : grid :=
  [[lit "Name"; lit "Group4 (final)"];
   [lit "a"; lit " first question "];
   [lit "b"];
   [lit "c"; lit "   "];
   [lit "d"; lit "second question - done"]].

(** A grid with no header that names the column. *)
Definition no_column_grid : grid :=
  [[lit "Name"; lit "Group 3"]; [lit "a"; lit "a question"]].

Definition sample_run (values : grid) : result :=
  @parse_group4_questions ascii_upper (lit "2024-01-01T00:00:00") (lit "sheet")
    (Some (lit "{}")) (SourceData (Some values) (one_cell_document user_struck_cell)).

(** ** The composition as the specification describes it *)

(** A done entry as the "Recently completed" field shows it: unmodified when
    it has at most 60 characters, else its first 60 characters and an
    ellipsis; wrapped in strikethrough delimiters, one entry per line. *)
Definition shown_entry (q : question) : pystr :=
  lit "~~"
  ++ (if len (text q) <=? 60 then text q else take 60 (text q) ++ lit "...")
  ++ lit "~~" ++ [10%N].

(** The text of a block, from its lines. *)
Abbreviation join_lines := (@concat pychar).

(** Packing of numbered lines into groups: a line that would take the
    current group beyond 1000 characters closes it and opens the next. *)
Fixpoint pack_from (cur : list pystr) (lines : list pystr) : list (list pystr) :=
  match lines with
  | [] => [cur]
  | line :: rest =>
      if 1000 <? len (concat cur ++ line)
      then cur :: pack_from [line] rest
      else pack_from (cur ++ [line]) rest
  end.


(** A grid with one entry of 1000 characters. *)
Definition long_entry_grid : grid :=
  [[lit "Name"; lit "Group4"]; [lit "a"; repeat 97%N 1000]].

(** A grid with 50 unfinished entries of 40 characters. *)
Definition fifty_grid : grid :=
  [lit "Name"; lit "Group4"] :: repeat [lit "a"; repeat 113%N 40] 50.

(** A grid whose entries are all unfinished. *)
Definition todo_only_grid : grid :=
  [[lit "Name"; lit "Group4"]; [lit "a"; lit "first"]; [lit "b"; lit "second"]].

(** Todo embeds titled with consecutive block numbers, from [k] on. *)
Fixpoint numbered_embeds (color : Z) (k : Z) (blocks : list pystr) : list embed :=
  match blocks with
  | [] => []
  | block :: rest => todo_embed color k block :: numbered_embeds color (k + 1) rest
  end.

(** The name of the alert field and the text of the urgent mention. *)
Definition alert_name : pystr := [0xF8FF; 0xFC; 0xF6; 0xAE]%N ++ lit " Alert".
Definition urgent_mention : pystr := lit "@here Multiple questions need attention!".

(** The block of an error result. *)
Definition error_embed (now msg : pystr) : embed :=
  {| embed_title := Some ([0xF8FF; 0xFC; 0xEC; 0xE3]%N ++ lit " Group 4 Questions Update");
     embed_description := Some ([0x201A; 0xF9; 0xE5]%N ++ lit " **Error occurred**");
     embed_color := red;
     embed_timestamp := Some now;
     embed_footer := Some (lit "Questions Parser Bot");
     embed_fields := [{| name := lit "Error Message"; value := msg; inline := false |}] |}.

(** A case mapping for ASCII and Latin-1 letters. *)
Definition latin1_upper : StrUpper :=
  map (fun c =>
         if ((97 <=? c) && (c <=? 122))%N then (c - 32)%N
         else if ((224 <=? c) && (c <=? 254) && negb (c =? 247))%N then (c - 32)%N
         else c).

(** ** [extract_sheet_id_from_url] *)

(** The scan of [s.split(sep)] for a non-empty [sep]: [cur] is the piece
    being read, [skip] characters of the last separator are still to be
    stepped over. *)
Fixpoint split_scan (sep : pystr) (skip : nat) (cur : pystr) (s : pystr)
    : list pystr :=
  match s with
  | [] => [cur]
  | c :: rest =>
      match skip with
      | S k => split_scan sep k cur rest
      | O =>
          if is_prefix sep s
          then cur :: split_scan sep (length sep - 1) [] rest
          else split_scan sep 0 (cur ++ [c]) rest
      end
  end.

(** [s.split(sep)]; an empty separator is refused. *)
Definition str_split (sep s : pystr) : res (list pystr) :=
  match sep with
  | [] => Raise (ValueError (lit "empty separator"))
  | _ => Ok (split_scan sep 0 [] s)
  end.

(** [l[i]] on a list of pieces. *)
Definition list_item {A} (l : list A) (i : Z) : res A :=
  match py_index l i with
  | Some x => Ok x
  | None => Raise IndexError
  end.

Definition url_marker : pystr := lit "/spreadsheets/d/".

(** [extract_sheet_id_from_url]; the answer [None] of the source is
    [Ok None]. *)
Definition extract_sheet_id_from_url (url : pystr) : res (option pystr) :=
  if str_in url_marker url
  then
    parts ← str_split url_marker url;
    after ← list_item parts 1;
    pieces ← str_split (lit "/") after;
    sheet_id ← list_item pieces 0;
    Ok (Some sheet_id)
  else Ok None.

(** ** [get_sheet_data_with_formatting] *)

(** The three requests that the function sends to the sheets service, each
    answering the parsed response or raising (an [HttpError] or any other
    exception: both handlers of the function return the same pair). *)
Record sheets_service : Type := SheetsService {
  spreadsheets_get : pystr -> res pyval;
  values_get : pystr -> pystr -> res pyval;
  spreadsheets_get_grid : pystr -> list pystr -> res pyval
}.

(** The [for sheet in spreadsheet['sheets']] loop; [sheet_id] starts as
    [None]. *)
Fixpoint sheet_id_loop (sheet_name : pystr) (sheets : list pyval) : res pyval :=
  match sheets with
  | [] => Ok PNone
  | sheet :: rest =>
      properties ← py_getitem_str sheet (lit "properties");
      title ← py_getitem_str properties (lit "title");
      if py_eq_str title sheet_name
      then
        properties' ← py_getitem_str sheet (lit "properties");
        py_getitem_str properties' (lit "sheetId")
      else sheet_id_loop sheet_name rest
  end.

Definition is_none (v : pyval) : bool :=
  match v with PNone => true | _ => false end.

(** The [try] block. *)
Definition get_sheet_data_try (service : sheets_service)
    (spreadsheet_id sheet_name : pystr) : res (pyval * pyval) :=
  spreadsheet ← spreadsheets_get service spreadsheet_id;
  sheets ← py_getitem_str spreadsheet (lit "sheets");
  items ← py_iter sheets;
  sheet_id ← sheet_id_loop sheet_name items;
  if is_none sheet_id
  then Raise (ValueError (lit "Sheet '" ++ sheet_name ++ lit "' not found"))
  else
    values_result ← values_get service spreadsheet_id (sheet_name ++ lit "!A:Z");
    values ← py_get values_result (lit "values") (PList []);
    formatting_result ←
      spreadsheets_get_grid service spreadsheet_id [sheet_name ++ lit "!A:Z"];
    Ok (values, formatting_result).

(** Both handlers return [(None, None)]. *)
Definition get_sheet_data_with_formatting (service : sheets_service)
    (spreadsheet_id sheet_name : pystr) : pyval * pyval :=
  match get_sheet_data_try service spreadsheet_id sheet_name with
  | Ok answer => answer
  | Raise _ => (PNone, PNone)
  end.

(** ** [main] *)

(** The environment variables that [main] reads. *)
Record environment : Type := Environment {
  SHEET_URL : option pystr;
  GOOGLE_CREDENTIALS : option pystr;
  DISCORD_WEBHOOK_URL : option pystr
}.

(** What [main] writes and sends, in order: the result file, the summary
    file (with the notification status once it is known) and the webhook
    request. *)
Inductive output : Type :=
  | WroteResult (r : result)
  | WroteSummary (s : summary) (discord_notification_sent : option bool)
  | Posted (p : payload).

Definition env_truthy (o : option pystr) : bool :=
  py_truthy (from_option PStr PNone o).

(** [main]: the outputs made and how the run ends.  [source] is what the
    spreadsheet source answers and [post] the webhook request. *)
Definition main `{StrUpper} (now : pystr) (env : environment)
    (source : source_outcome) (post : payload -> bool) : list output * res unit :=
  if negb (env_truthy (SHEET_URL env))
  then ([], Raise (ValueError (lit "SHEET_URL environment variable not set")))
  else if negb (env_truthy (GOOGLE_CREDENTIALS env))
  then ([], Raise (ValueError
         (lit "GOOGLE_CREDENTIALS environment variable not set for formatting detection")))
  else
    let result :=
      parse_group4_questions now (default [] (SHEET_URL env)) (GOOGLE_CREDENTIALS env)
        source in
    match main_summary result with
    | Raise e => ([WroteResult result], Raise e)
    | Ok summary =>
        if env_truthy (DISCORD_WEBHOOK_URL env)
        then
          let webhook := default [] (DISCORD_WEBHOOK_URL env) in
          let notification_sent := send_discord_notification post webhook result in
          ([WroteResult result; WroteSummary summary None]
           ++ match build_payload result with
              | Ok p => [Posted p]
              | Raise _ => []
              end
           ++ [WroteSummary summary (Some notification_sent)],
           Ok tt)
        else ([WroteResult result; WroteSummary summary None], Ok tt)
    end.

(** A property of a sheet entry of the spreadsheet description. *)
Definition sheet_property (sheet : pyval) (key : pystr) : option pyval :=
  sd ← as_dict sheet;
  properties ← sd !! lit "properties";
  pd ← as_dict properties;
  pd !! key.

(** The requests answer, and the spreadsheet has the named sheet: [values]
    and [formatting] are what the service holds for it. *)
Definition sheet_data_available (service : sheets_service)
    (spreadsheet_id sheet_name : pystr) (values formatting : pyval) : Prop :=
  exists d entries sheet sheet_id vd,
    spreadsheets_get service spreadsheet_id = Ok (PDict d)
    /\ d !! lit "sheets" = Some (PList entries)
    /\ find_sheet sheet_name entries = Some sheet
    /\ sheet_property sheet (lit "sheetId") = Some sheet_id
    /\ is_none sheet_id = false
    /\ values_get service spreadsheet_id (sheet_name ++ lit "!A:Z") = Ok (PDict vd)
    /\ values = default (PList []) (vd !! lit "values")
    /\ spreadsheets_get_grid service spreadsheet_id [sheet_name ++ lit "!A:Z"]
       = Ok formatting.

(** A service that holds one sheet ["Questions"] with identifier 0. *)
Definition sample_service : sheets_service :=
  {| spreadsheets_get := fun _ =>
       Ok (dict_of [("sheets", PList [dict_of
             [("properties", dict_of [("title", PStr (lit "Questions"));
                                      ("sheetId", PInt 0)])]])]%string);
     values_get := fun _ _ =>
       Ok (dict_of [("values", PList [PList [PStr (lit "Group4")]])]%string);
     spreadsheets_get_grid := fun _ _ => Ok (one_cell_document plain_cell) |}.

(** An environment with every variable set. *)
Definition sample_env : environment :=
  {| SHEET_URL := Some (lit "sheet");
     GOOGLE_CREDENTIALS := Some (lit "{}");
     DISCORD_WEBHOOK_URL := Some (lit "https://discord.example/webhook") |}.

(** A sheet entry with a title and one data cell. *)
Definition sheet_entry (title : pystr) (cell : pyval) : pyval :=
  dict_of
    [("properties", dict_of [("title", PStr title)]);
     ("data", PList [dict_of
        [("rowData", PList [dict_of []; dict_of [("values", PList [cell])]])]])]%string.

(** A spreadsheet description with the given sheet entries. *)
Definition sheets_dict (entries : list pyval) : gmap pystr pyval :=
  {[ lit "sheets" := PList entries ]}.

(** ** Further sample documents and grids *)

(** A cell struck through by its effective format. *)
Definition effective_struck_cell : pyval :=
  dict_of [("effectiveFormat",
            dict_of [("textFormat", dict_of [("strikethrough", PBool true)])])]%string.

(** A cell whose second format run is struck through; the first run has
    another format. *)
Definition partly_struck_cell : pyval :=
  dict_of [("textFormatRuns",
            PList [dict_of [("format", dict_of [("bold", PBool true)])];
                   dict_of [("startIndex", PInt 5);
                            ("format", dict_of [("strikethrough", PBool true)])]])]%string.

(** A cell whose effective format is [null] and whose user-entered format
    carries the flag. *)
Definition null_effective_cell : pyval :=
  dict_of [("effectiveFormat", PNone);
           ("userEnteredFormat",
            dict_of [("textFormat", dict_of [("strikethrough", PBool true)])])]%string.

(** A cell whose first format run has a [null] format and whose second run
    carries the flag. *)
Definition null_run_cell : pyval :=
  dict_of [("textFormatRuns",
            PList [dict_of [("format", PNone)];
                   dict_of [("startIndex", PInt 5);
                            ("format", dict_of [("strikethrough", PBool true)])]])]%string.

(** A document with one sheet ["Questions"] whose grid has the given rows
    of cell records. *)
Definition rows_document (rows : list (list pyval)) : pyval :=
  dict_of
    [("sheets",
      PList [dict_of
        [("properties", dict_of [("title", PStr (lit "Questions"))]);
         ("data", PList [dict_of
            [("rowData",
              PList (map (fun cells => dict_of [("values", PList cells)]) rows))]])]])]%string.

(** A grid whose entries carry manual markers, and a document that strikes
    through the first of them only. *)
Definition marked_grid : grid :=
  [[lit "Name"; lit "Group4"];
   [lit "a"; lit "[DONE] first"];
   [lit "b"; lit "second [done]"];
   [lit "c"; lit "third"]].

Definition marked_document : pyval :=
  rows_document
    [[]; [plain_cell; effective_struck_cell]; [plain_cell; plain_cell];
     [plain_cell; plain_cell]].

Definition marked_source : source_outcome :=
  SourceData (Some marked_grid) marked_document.

(** A grid with four finished entries, of 10, 75, 40 and 11 characters, and
    one unfinished entry. *)
Definition completed_grid : grid :=
  [[lit "Name"; lit "Group4"];
   [lit "a"; lit "[DONE] one"];
   [lit "b"; lit "[DONE] " ++ repeat 120%N 68];
   [lit "c"; lit "[DONE] " ++ repeat 121%N 33];
   [lit "d"; lit "[DONE] four"];
   [lit "e"; lit "open"]].

(* THEOREMS *)

(** ** Formatting Inspector *)

Section Inspector.

Lemma py_index_lt {A} (l : list A) i x :
  py_index l i = Some x -> i < Z.of_nat (length l).
Proof.
  unfold py_index. destruct (0 <=? i) eqn:Hi.
  - intros H. apply lookup_lt_Some in H. lia.
  - intros _. lia.
Qed.

Lemma py_index_0 {A} (l : list A) : py_index l 0 = head l.
Proof. unfold py_index. simpl. by destruct l. Qed.

Lemma head_length_pos {A} (l : list A) x :
  head l = Some x -> (0 <? Z.of_nat (length l)) = true /\ Nat.eqb (length l) 0 = false.
Proof. destruct l; [done|]. intros _. split; [apply Z.ltb_lt; simpl; lia|done]. Qed.

Ltac nav H :=
  repeat match type of H with
  | context [mbind _ ?o] =>
      let E := fresh "E" in
      destruct o eqn:E; simpl in H; [|discriminate H]
  end.

Ltac unwrap :=
  repeat match goal with
  | E : as_dict ?v = Some _ |- _ => destruct v; simpl in E; try discriminate E; injection E as ->
  | E : as_list ?v = Some _ |- _ => destruct v; simpl in E; try discriminate E; injection E as ->
  end.

Ltac red_py := cbn -[cell_checks Z.ltb Z.of_nat py_index lit].
Tactic Notation "red_py" "in" hyp(H) := cbn -[cell_checks Z.ltb Z.of_nat py_index lit] in H.

Lemma sheet_rows_Some sheet rows :
  sheet_rows sheet = Some rows ->
  exists sd grids gd,
    sheet = PDict sd /\ sd !! lit "data" = Some (PList grids)
    /\ head grids = Some (PDict gd) /\ gd !! lit "rowData" = Some (PList rows).
Proof.
  unfold sheet_rows. intros H. nav H. unwrap.
  eauto 10.
Qed.

Lemma row_cells_Some row cells :
  row_cells row = Some cells ->
  exists rd, row = PDict rd /\ rd !! lit "values" = Some (PList cells).
Proof.
  unfold row_cells. intros H. nav H. unwrap.
  eauto.
Qed.

(** Once the cell is located, the sheet body is the three checks. *)
Lemma sheet_body_located sheet r c cell :
  sheet_cell sheet r c = Some cell ->
  sheet_body sheet r c = cell_checks cell.
Proof.
  unfold sheet_cell, sheet_body. intros H.
  destruct (sheet_rows sheet) as [rows|] eqn:Hrows; [|discriminate H].
  apply sheet_rows_Some in Hrows as (sd & grids & gd & -> & Hdata & Hgrid & Hrows).
  simpl in H. destruct (py_index rows r) as [row|] eqn:Hrow; [|discriminate H].
  simpl in H. destruct (row_cells row) as [cells|] eqn:Hcells; [|discriminate H].
  apply row_cells_Some in Hcells as (rd & -> & Hcells). simpl in H.
  destruct (head_length_pos _ _ Hgrid) as [Hpos Hne]. rewrite <- py_index_0 in Hgrid.
  pose proof (py_index_lt _ _ _ Hrow) as Hr. apply Z.ltb_lt in Hr.
  pose proof (py_index_lt _ _ _ H) as Hc. apply Z.ltb_lt in Hc.
  red_py. rewrite Hdata. red_py.
  rewrite Hne, Hpos, Hgrid. red_py.
  rewrite Hrows. red_py.
  rewrite Hr, Hrow. red_py.
  rewrite Hcells. red_py.
  by rewrite Hc, H.
Qed.

Lemma bind_Ok {A B} (m : res A) (k : A -> res B) b :
  m ≫= k = Ok b -> exists a, m = Ok a /\ k a = Ok b.
Proof. destruct m; [eauto|discriminate]. Qed.

Lemma py_get_Ok v key dflt x :
  py_get v key dflt = Ok x -> exists d, v = PDict d /\ x = default dflt (d !! key).
Proof. destruct v; try discriminate. intros [= <-]. eauto. Qed.

Lemma py_getitem_int_dict v i d :
  py_getitem_int v i = Ok (PDict d) ->
  exists l, v = PList l /\ py_index l i = Some (PDict d).
Proof.
  destruct v; try discriminate; simpl.
  - destruct (py_index s i); discriminate.
  - destruct (py_index l i) eqn:E; [|discriminate]. intros [= ->]. eauto.
Qed.

Lemma default_list_located o l i (x : pyval) :
  default (PList []) o = PList l -> py_index l i = Some x -> o = Some (PList l).
Proof.
  destruct o; simpl; [congruence|]. intros [= <-]. unfold py_index.
  by repeat case_match.
Qed.

Lemma cell_checks_dict cell b :
  cell_checks cell = Ok b -> exists d, cell = PDict d.
Proof.
  unfold cell_checks. intros (x & (d & -> & _)%py_get_Ok & _)%bind_Ok. eauto.
Qed.

(** Conversely the sheet body returns [True] only through the checks of a
    located cell. *)
Lemma sheet_body_true sheet r c :
  sheet_body sheet r c = Ok true ->
  exists cell, sheet_cell sheet r c = Some cell /\ cell_checks cell = Ok true.
Proof.
  unfold sheet_body. intros H.
  apply bind_Ok in H as (grid_data & (sd & -> & Hdata)%py_get_Ok & H).
  destruct (py_truthy grid_data); [|discriminate].
  apply bind_Ok in H as (n & _ & H). destruct (0 <? n); [|discriminate].
  apply bind_Ok in H as (grid0 & Hgrid0 & H).
  apply bind_Ok in H as (row_data & (gd & -> & Hrows)%py_get_Ok & H).
  apply py_getitem_int_dict in Hgrid0 as (grids & -> & Hgrid0).
  apply bind_Ok in H as (n_rows & _ & H). destruct (r <? n_rows); [|discriminate].
  apply bind_Ok in H as (row & Hrow & H).
  apply bind_Ok in H as (values & (rd & -> & Hvalues)%py_get_Ok & H).
  apply py_getitem_int_dict in Hrow as (rows & -> & Hrow).
  apply bind_Ok in H as (n_values & _ & H). destruct (c <? n_values); [|discriminate].
  apply bind_Ok in H as (cell & Hcell & H).
  destruct (cell_checks_dict _ _ H) as [cd ->].
  apply py_getitem_int_dict in Hcell as (cells & -> & Hcell).
  symmetry in Hdata, Hrows, Hvalues.
  eapply default_list_located in Hdata; [|exact Hgrid0].
  eapply default_list_located in Hrows; [|exact Hrow].
  eapply default_list_located in Hvalues; [|exact Hcell].
  exists (PDict cd). split; [|exact H].
  unfold sheet_cell, sheet_rows, row_cells. rewrite py_index_0 in Hgrid0. red_py.
  rewrite Hdata. red_py. rewrite Hgrid0. red_py. rewrite Hrows. red_py.
  rewrite Hrow. red_py. rewrite Hvalues. red_py. exact Hcell.
Qed.

Lemma sheet_title_Some s t :
  sheet_title s = Some t ->
  exists p, py_getitem_str s (lit "properties") = Ok p
            /\ py_getitem_str p (lit "title") = Ok t.
Proof.
  unfold sheet_title. intros H. nav H. unwrap. simpl.
  rewrite E0. eexists. split; [reflexivity|]. simpl. by rewrite H.
Qed.

Lemma sheet_title_Ok s p t :
  py_getitem_str s (lit "properties") = Ok p ->
  py_getitem_str p (lit "title") = Ok t ->
  sheet_title s = Some t.
Proof.
  unfold sheet_title. destruct s; try discriminate. simpl.
  destruct (d !! lit "properties"); [|discriminate]. intros [= ->].
  destruct p; try discriminate. simpl.
  destruct (d0 !! lit "title"); [|discriminate]. by intros [= ->].
Qed.

Lemma find_sheet_loop name r c sheets sheet :
  find_sheet name sheets = Some sheet ->
  sheets_loop name r c sheets = sheet_body sheet r c.
Proof.
  induction sheets as [|s rest IH]; [discriminate|]. cbn [find_sheet sheets_loop].
  destruct (sheet_title s) as [t|] eqn:Ht; [|discriminate].
  apply sheet_title_Some in Ht as (p & -> & Ht). red_py. rewrite Ht. red_py.
  destruct (py_eq_str t name); [congruence|auto].
Qed.

Lemma sheets_loop_true name r c sheets :
  sheets_loop name r c sheets = Ok true ->
  exists sheet, find_sheet name sheets = Some sheet /\ sheet_body sheet r c = Ok true.
Proof.
  induction sheets as [|s rest IH]; [discriminate|]. cbn [find_sheet sheets_loop].
  intros (properties & Hp & (title & Ht & H)%bind_Ok)%bind_Ok.
  rewrite (sheet_title_Ok _ _ _ Hp Ht). red_py.
  destruct (py_eq_str title name); eauto.
Qed.

Lemma sheets_loop_not_list name r c v items :
  as_list v = None -> py_iter v = Ok items ->
  sheets_loop name r c items <> Ok true.
Proof.
  intros Hv H. assert (Hstr : Forall (fun x => exists t, x = PStr t) items).
  { destruct v; try discriminate; injection H as <-; apply Forall_forall;
      intros x; rewrite list_elem_of_fmap; intros (? & -> & _); eauto. }
  destruct items as [|x rest]; [discriminate|].
  apply Forall_cons in Hstr as [[t ->] _]. discriminate.
Qed.

(** The inspector answers [True] exactly through the checks of the cell the
    document holds at the coordinate. *)
Lemma doc_sheet_Some doc name sheet :
  doc_sheet doc name = Some sheet ->
  exists d entries,
    doc = PDict d /\ d !! lit "sheets" = Some (PList entries)
    /\ find_sheet name entries = Some sheet.
Proof. unfold doc_sheet. intros H. nav H. unwrap. eauto. Qed.

Lemma check_located doc name r c cell :
  doc_cell doc name r c = Some cell ->
  check_cell_strikethrough doc name r c
  = match cell_checks cell with Ok b => b | Raise _ => false end.
Proof.
  unfold doc_cell, check_cell_strikethrough, check_cell_strikethrough_try. intros H.
  destruct (doc_sheet doc name) as [sheet|] eqn:Hsheet; [|discriminate H].
  apply doc_sheet_Some in Hsheet as (d & entries & -> & Hsheets & Hfind).
  simpl in H. red_py. rewrite Hsheets. red_py.
  by rewrite (find_sheet_loop _ _ _ _ _ Hfind), (sheet_body_located _ _ _ _ H).
Qed.

Lemma check_true_located doc name r c :
  check_cell_strikethrough doc name r c = true ->
  exists cell, doc_cell doc name r c = Some cell /\ cell_checks cell = Ok true.
Proof.
  unfold check_cell_strikethrough.
  destruct (check_cell_strikethrough_try doc name r c) as [b|] eqn:H; [|discriminate].
  intros ->. unfold check_cell_strikethrough_try in H.
  apply bind_Ok in H as (sheets & (d & -> & Hs)%py_get_Ok & H).
  apply bind_Ok in H as (items & Hitems & H). pose proof H as Hloop.
  apply sheets_loop_true in H as (sheet & Hfind & H).
  apply sheet_body_true in H as (cell & Hcell & H).
  exists cell. split; [|exact H]. unfold doc_cell, doc_sheet. red_py.
  destruct (d !! lit "sheets") as [v|]; simpl in Hs; subst sheets.
  - red_py. destruct (as_list v) as [l|] eqn:Hv.
    + destruct v; try discriminate Hv. injection Hv as ->.
      injection Hitems as <-. red_py. by rewrite Hfind.
    + exfalso. by eapply sheets_loop_not_list.
  - injection Hitems as <-. discriminate.
Qed.

Lemma runs_loop_true runs :
  text_format_runs_loop runs = Ok true -> existsb run_flag runs = true.
Proof.
  induction runs as [|run rest IH]; [discriminate|]. cbn [text_format_runs_loop existsb].
  intros (fmt & (d & -> & ->)%py_get_Ok & (flag & (fd & Hfd & ->)%py_get_Ok & H)%bind_Ok)%bind_Ok.
  apply orb_true_iff. unfold run_flag, flag_at.
  destruct (d !! lit "format") as [v|]; simpl in Hfd; subst.
  - destruct (fd !! lit "strikethrough") as [flag|]; simpl in H.
    + destruct (py_truthy flag); auto.
    + auto.
  - injection Hfd as <-. rewrite lookup_empty in H. simpl in H. auto.
Qed.

(** The flag that [cell.get(outer, {}).get('textFormat', {}).get('strikethrough', False)]
    tests, when it evaluates. *)
Lemma format_lookup_Ok d outer flag :
  (fmt ← py_get (PDict d) outer (PDict ∅);
   tf ← py_get fmt (lit "textFormat") (PDict ∅);
   py_get tf (lit "strikethrough") (PBool false)) = Ok flag ->
  py_truthy flag = flag_at [outer; lit "textFormat"; lit "strikethrough"] (PDict d).
Proof.
  red_py. destruct (d !! outer) as [fmt|]; red_py.
  - destruct fmt; try discriminate. red_py.
    destruct (d0 !! lit "textFormat") as [tf|]; red_py.
    + destruct tf; try discriminate. red_py.
      destruct (d1 !! lit "strikethrough"); red_py; by intros [= <-].
    + rewrite lookup_empty. by intros [= <-].
  - rewrite !lookup_empty. by intros [= <-].
Qed.

Lemma format_lookup_schema d outer :
  is_cell_format (d !! outer) = true ->
  exists flag,
    (fmt ← py_get (PDict d) outer (PDict ∅);
     tf ← py_get fmt (lit "textFormat") (PDict ∅);
     py_get tf (lit "strikethrough") (PBool false)) = Ok flag.
Proof.
  unfold is_cell_format, opt_mapping. red_py. destruct (d !! outer) as [fmt|]; red_py.
  - destruct fmt; try discriminate. red_py.
    destruct (d0 !! lit "textFormat") as [tf|]; red_py; [|eauto].
    destruct tf; try discriminate. eauto.
  - eauto.
Qed.

Lemma ret_bind {A B} (a : A) (k : A -> res B) : Ok a ≫= k = k a.
Proof. reflexivity. Qed.

(** The checks as two format lookups and the scan of the runs. *)
Lemma cell_checks_unfold d :
  cell_checks (PDict d) =
  (flag ← (fmt ← py_get (PDict d) (lit "effectiveFormat") (PDict ∅);
           tf ← py_get fmt (lit "textFormat") (PDict ∅);
           py_get tf (lit "strikethrough") (PBool false));
   if py_truthy flag then Ok true else
   user_flag ← (fmt ← py_get (PDict d) (lit "userEnteredFormat") (PDict ∅);
                tf ← py_get fmt (lit "textFormat") (PDict ∅);
                py_get tf (lit "strikethrough") (PBool false));
   if py_truthy user_flag then Ok true else
   runs ← py_iter (default (PList []) (d !! lit "textFormatRuns"));
   text_format_runs_loop runs).
Proof.
  unfold cell_checks. red_py.
  destruct (py_get (default (PDict ∅) (d !! lit "effectiveFormat")) _ _) as [tf|];
    [|done]; red_py.
  destruct (py_get tf _ _) as [flag|]; [|done]; red_py.
  destruct (py_truthy flag); [done|].
  destruct (py_get (default (PDict ∅) (d !! lit "userEnteredFormat")) _ _) as [utf|];
    [|done]; red_py.
  by destruct (py_get utf _ _).
Qed.

Lemma format_lookup_flag d outer :
  flag_at [outer; lit "textFormat"; lit "strikethrough"] (PDict d) = true ->
  exists flag,
    (fmt ← py_get (PDict d) outer (PDict ∅);
     tf ← py_get fmt (lit "textFormat") (PDict ∅);
     py_get tf (lit "strikethrough") (PBool false)) = Ok flag
    /\ py_truthy flag = true.
Proof.
  cbn [flag_at]. red_py. destruct (d !! outer) as [fmt|]; [|discriminate].
  destruct fmt; try discriminate. red_py.
  destruct (d0 !! lit "textFormat") as [tf|]; [|discriminate].
  destruct tf; try discriminate. red_py.
  destruct (d1 !! lit "strikethrough") as [flag|]; [|discriminate]. eauto.
Qed.

Lemma runs_loop_not_list v items :
  as_list v = None -> py_iter v = Ok items ->
  text_format_runs_loop items <> Ok true.
Proof.
  intros Hv H. assert (Hstr : Forall (fun x => exists t, x = PStr t) items).
  { destruct v; try discriminate; injection H as <-; apply Forall_forall;
      intros x; rewrite list_elem_of_fmap; intros (? & -> & _); eauto. }
  destruct items as [|x rest]; [discriminate|].
  apply Forall_cons in Hstr as [[t ->] _]. discriminate.
Qed.

(** [True] comes from one of the three sources. *)
Lemma cell_checks_true_flag cell :
  cell_checks cell = Ok true ->
  effective_flag cell || user_entered_flag cell || existsb run_flag (format_runs cell) = true.
Proof.
  intros H. destruct (cell_checks_dict _ _ H) as [d ->].
  rewrite cell_checks_unfold in H.
  apply bind_Ok in H as (flag & Hflag%format_lookup_Ok & H).
  fold (effective_flag (PDict d)) in Hflag. rewrite <- Hflag.
  destruct (py_truthy flag); [done|].
  apply bind_Ok in H as (uflag & Huflag%format_lookup_Ok & H).
  fold (user_entered_flag (PDict d)) in Huflag. rewrite <- Huflag.
  destruct (py_truthy uflag); [done|].
  apply bind_Ok in H as (runs & Hiter & H). cbn [orb format_runs].
  destruct (d !! lit "textFormatRuns") as [v|]; simpl in Hiter.
  - destruct (as_list v) as [l|] eqn:Hv.
    + destruct v; try discriminate Hv. injection Hv as ->. injection Hiter as <-.
      by apply runs_loop_true.
    + exfalso. by eapply runs_loop_not_list.
  - by injection Hiter as <-.
Qed.

(** The effective format is checked first: its flag decides alone. *)
Lemma cell_checks_effective cell :
  effective_flag cell = true -> cell_checks cell = Ok true.
Proof.
  intros H. destruct cell; try discriminate H.
  apply format_lookup_flag in H as (flag & Hflag & Htrue).
  rewrite cell_checks_unfold, Hflag. red_py. by rewrite Htrue.
Qed.

Lemma py_index_None {A} (l : list A) i :
  len l <= i \/ i < - len l -> py_index l i = None.
Proof.
  unfold py_index, len. intros H. destruct (0 <=? i) eqn:Hi.
  - apply lookup_ge_None. lia.
  - destruct (0 <=? Z.of_nat (length l) + i) eqn:Hw; [lia|done].
Qed.

(** What [doc_cell] answering [None] covers: the sheet is absent, ... *)
Lemma doc_cell_sheet_absent doc name r c :
  doc_sheet doc name = None -> doc_cell doc name r c = None.
Proof. unfold doc_cell. by intros ->. Qed.

(** ... the row index is out of bounds for the recorded rows, ... *)
Lemma doc_cell_row_out_of_bounds doc name r c sheet rows :
  doc_sheet doc name = Some sheet -> sheet_rows sheet = Some rows ->
  len rows <= r \/ r < - len rows ->
  doc_cell doc name r c = None.
Proof.
  unfold doc_cell, sheet_cell. intros -> Hrows H. simpl. rewrite Hrows. simpl.
  by rewrite (py_index_None _ _ H).
Qed.

(** ... or the column index is out of bounds for the cells of the row. *)
Lemma doc_cell_col_out_of_bounds doc name r c sheet rows row cells :
  doc_sheet doc name = Some sheet -> sheet_rows sheet = Some rows ->
  py_index rows r = Some row -> row_cells row = Some cells ->
  len cells <= c \/ c < - len cells ->
  doc_cell doc name r c = None.
Proof.
  unfold doc_cell, sheet_cell. intros -> Hrows Hrow Hcells H. simpl. rewrite Hrows. simpl.
  rewrite Hrow. simpl.
  rewrite Hcells. simpl. by apply py_index_None.
Qed.

(** C4, as stated, fails: a document whose cell record lacks the keys
    [effectiveFormat] and [textFormatRuns] is answered [True] when the
    user-entered format carries the flag. *)
Lemma check_cell_strikethrough_missing_key_true :
  (as_dict user_struck_cell ≫= fun d => d !! lit "effectiveFormat") = None
  /\ (as_dict user_struck_cell ≫= fun d => d !! lit "textFormatRuns") = None
  /\ check_cell_strikethrough (one_cell_document user_struck_cell) (lit "Questions") 1 0
     = true.
Proof. vm_compute. auto. Qed.

(** The inspector answers [True] only for a cell that the document holds
    and that carries the flag in one of its three sources. *)
Lemma check_true_inv doc name r c :
  check_cell_strikethrough doc name r c = true ->
  exists cell,
    doc_cell doc name r c = Some cell
    /\ effective_flag cell || user_entered_flag cell
       || existsb run_flag (format_runs cell) = true.
Proof.
  intros (cell & Hcell & H)%check_true_located.
  exists cell. split; [done|]. by apply cell_checks_true_flag.
Qed.

(** C4 (amended): [check_cell_strikethrough] never raises: an exception
    inside its [try] block is answered [False].  It answers [False]
    when the sheet is absent, when the row or the column index is out of
    bounds for the recorded grid data, in general whenever the document does
    not hold the cell (also because a key on the way to it is missing), and
    when the located cell record carries the flag in none of its three
    sources, a key missing inside the record counting as no flag. *)
Theorem check_cell_strikethrough_total doc name r c :
  (forall e, check_cell_strikethrough_try doc name r c = Raise e ->
             check_cell_strikethrough doc name r c = false)
  /\ (doc_sheet doc name = None -> check_cell_strikethrough doc name r c = false)
  /\ (forall sheet rows,
        doc_sheet doc name = Some sheet -> sheet_rows sheet = Some rows ->
        len rows <= r \/ r < - len rows ->
        check_cell_strikethrough doc name r c = false)
  /\ (forall sheet rows row cells,
        doc_sheet doc name = Some sheet -> sheet_rows sheet = Some rows ->
        py_index rows r = Some row -> row_cells row = Some cells ->
        len cells <= c \/ c < - len cells ->
        check_cell_strikethrough doc name r c = false)
  /\ (doc_cell doc name r c = None -> check_cell_strikethrough doc name r c = false)
  /\ (forall cell, doc_cell doc name r c = Some cell ->
        effective_flag cell = false -> user_entered_flag cell = false ->
        existsb run_flag (format_runs cell) = false ->
        check_cell_strikethrough doc name r c = false).
Proof.
  assert (Hnone : doc_cell doc name r c = None ->
                  check_cell_strikethrough doc name r c = false).
  { intros Hnone. destruct (check_cell_strikethrough doc name r c) eqn:H; [|done].
    apply check_true_inv in H as (cell & Hcell & _). congruence. }
  repeat split.
  - intros e He. unfold check_cell_strikethrough. by rewrite He.
  - intros Hsheet. by apply Hnone, doc_cell_sheet_absent.
  - intros sheet rows Hsheet Hrows Hr. apply Hnone. by eapply doc_cell_row_out_of_bounds.
  - intros sheet rows row cells Hsheet Hrows Hrow Hcells Hc. apply Hnone.
    by eapply doc_cell_col_out_of_bounds.
  - exact Hnone.
  - intros cell Hcell He Hu Hr.
    destruct (check_cell_strikethrough doc name r c) eqn:H; [|done].
    apply check_true_inv in H as (cell' & Hcell' & H).
    assert (cell' = cell) as -> by congruence. by rewrite He, Hu, Hr in H.
Qed.

Lemma check_cell_strikethrough_total_witness :
  check_cell_strikethrough (one_cell_document user_struck_cell) (lit "Questions") 5 0 = false
  /\ check_cell_strikethrough (one_cell_document user_struck_cell) (lit "Other") 1 0 = false
  /\ check_cell_strikethrough (one_cell_document plain_cell) (lit "Questions") 1 0 = false.
Proof.
  split; [|split].
  - destruct (check_cell_strikethrough_total
                (one_cell_document user_struck_cell) (lit "Questions") 5 0)
      as (_ & _ & _ & _ & Hnone & _).
    apply Hnone. vm_compute. reflexivity.
  - destruct (check_cell_strikethrough_total
                (one_cell_document user_struck_cell) (lit "Other") 1 0)
      as (_ & Habsent & _).
    apply Habsent. vm_compute. reflexivity.
  - destruct (check_cell_strikethrough_total
                (one_cell_document plain_cell) (lit "Questions") 1 0)
      as (_ & _ & _ & _ & _ & Hplain).
    apply (Hplain plain_cell); vm_compute; reflexivity.
Defined.

(** The format lookup under [outer] evaluates exactly on a readable
    format. *)
Lemma format_lookup_readable d outer flag :
  (fmt ← py_get (PDict d) outer (PDict ∅);
   tf ← py_get fmt (lit "textFormat") (PDict ∅);
   py_get tf (lit "strikethrough") (PBool false)) = Ok flag ->
  format_readable outer (PDict d) = true.
Proof.
  unfold format_readable, is_cell_format, opt_mapping. red_py.
  destruct (d !! outer) as [fmt|]; red_py; [|done].
  destruct fmt; try discriminate. red_py.
  destruct (d0 !! lit "textFormat") as [tf|]; red_py; [|done].
  by destruct tf.
Qed.

(** The scan of the runs stops at the first run that carries the flag, when
    the runs before it are readable. *)
Lemma runs_loop_prefix before run after :
  forallb is_format_run before = true -> run_flag run = true ->
  text_format_runs_loop (before ++ run :: after) = Ok true.
Proof.
  intros Hbefore Hrun. induction before as [|b before IH]; cbn [app].
  - destruct run; try discriminate Hrun. cbn [text_format_runs_loop].
    cbn [run_flag flag_at] in Hrun. red_py.
    destruct (d !! lit "format") as [fmt|]; [|discriminate Hrun].
    destruct fmt; try discriminate Hrun. red_py.
    destruct (d0 !! lit "strikethrough") as [flag|]; [|discriminate Hrun].
    red_py. by rewrite Hrun.
  - cbn [forallb] in Hbefore. apply andb_true_iff in Hbefore as [Hb Hbefore].
    specialize (IH Hbefore). cbn [text_format_runs_loop].
    destruct b; try discriminate Hb. cbn [is_format_run opt_mapping] in Hb. red_py.
    destruct (d !! lit "format") as [fmt|]; red_py.
    + destruct fmt; try discriminate Hb. red_py.
      destruct (d0 !! lit "strikethrough") as [flag|]; red_py; [|exact IH].
      destruct (py_truthy flag); [done|exact IH].
    + rewrite lookup_empty. red_py. exact IH.
Qed.

Lemma runs_loop_true_prefix runs :
  text_format_runs_loop runs = Ok true ->
  exists before run after,
    runs = before ++ run :: after
    /\ forallb is_format_run before = true /\ run_flag run = true.
Proof.
  induction runs as [|run rest IH]; [discriminate|]. cbn [text_format_runs_loop].
  intros (fmt & (d & -> & ->)%py_get_Ok & (flag & (fd & Hfd & ->)%py_get_Ok & H)%bind_Ok)%bind_Ok.
  assert (Hshape : is_format_run (PDict d) = true).
  { cbn [is_format_run opt_mapping]. destruct (d !! lit "format") as [v|]; [|done].
    simpl in Hfd. by subst v. }
  assert (Hflag : run_flag (PDict d) = py_truthy (default (PBool false) (fd !! lit "strikethrough"))).
  { cbn [run_flag flag_at]. destruct (d !! lit "format") as [v|]; simpl in Hfd.
    - subst v. by destruct (fd !! lit "strikethrough").
    - injection Hfd as <-. by rewrite lookup_empty. }
  destruct (py_truthy (default (PBool false) (fd !! lit "strikethrough"))) eqn:Htruthy.
  - exists [], (PDict d), rest. by repeat split.
  - destruct (IH H) as (before & run & after & -> & Hbefore & Hrun).
    exists (PDict d :: before), run, after. cbn [forallb app].
    by rewrite Hshape, Hbefore.
Qed.

(** C5, as stated, fails: a located cell whose effective format is [null]
    is answered [False] although its user-entered format carries the flag,
    and so is a cell whose struck format run follows a run with a [null]
    format. *)
Lemma later_source_hidden_by_null :
  doc_cell (one_cell_document null_effective_cell) (lit "Questions") 1 0
  = Some null_effective_cell
  /\ user_entered_flag null_effective_cell = true
  /\ check_cell_strikethrough (one_cell_document null_effective_cell) (lit "Questions") 1 0
     = false
  /\ doc_cell (one_cell_document null_run_cell) (lit "Questions") 1 0 = Some null_run_cell
  /\ existsb run_flag (format_runs null_run_cell) = true
  /\ check_cell_strikethrough (one_cell_document null_run_cell) (lit "Questions") 1 0
     = false.
Proof. vm_compute. by repeat split. Qed.

(** C5 (amended): for a cell the document holds, [check_cell_strikethrough]
    answers [True] when the effective format carries the flag, whatever the
    other fields are; when the user-entered format carries it and the
    effective format is readable; and when a format run carries it, both
    formats are readable and the runs before it are readable.  It answers
    [True] in these cases only: a source that is checked earlier and
    cannot be read hides the later ones. *)
Theorem check_cell_strikethrough_any_source doc name r c cell :
  doc_cell doc name r c = Some cell ->
  (effective_flag cell = true -> check_cell_strikethrough doc name r c = true)
  /\ (format_readable (lit "effectiveFormat") cell = true ->
      user_entered_flag cell = true ->
      check_cell_strikethrough doc name r c = true)
  /\ (format_readable (lit "effectiveFormat") cell = true ->
      format_readable (lit "userEnteredFormat") cell = true ->
      forall before run after,
        format_runs cell = before ++ run :: after ->
        forallb is_format_run before = true -> run_flag run = true ->
        check_cell_strikethrough doc name r c = true)
  /\ (check_cell_strikethrough doc name r c = true ->
      effective_flag cell = true
      \/ (format_readable (lit "effectiveFormat") cell = true
          /\ user_entered_flag cell = true)
      \/ (format_readable (lit "effectiveFormat") cell = true
          /\ format_readable (lit "userEnteredFormat") cell = true
          /\ exists before run after,
               format_runs cell = before ++ run :: after
               /\ forallb is_format_run before = true /\ run_flag run = true)).
Proof.
  intros Hcell. rewrite (check_located _ _ _ _ _ Hcell). split; [|split; [|split]].
  - intros He. by rewrite (cell_checks_effective _ He).
  - intros Hr Hu. destruct cell; try discriminate Hr.
    destruct (format_lookup_schema _ _ Hr) as [flag Hflag].
    rewrite cell_checks_unfold, Hflag, ret_bind. cbv beta.
    destruct (py_truthy flag); [done|].
    apply format_lookup_flag in Hu as (uflag & Huflag & Htrue).
    rewrite Huflag, ret_bind. cbv beta. by rewrite Htrue.
  - intros Hr Hur before run after Hruns Hbefore Hrun.
    destruct cell; try discriminate Hr.
    destruct (format_lookup_schema _ _ Hr) as [flag Hflag].
    destruct (format_lookup_schema _ _ Hur) as [uflag Huflag].
    rewrite cell_checks_unfold, Hflag, ret_bind. cbv beta.
    destruct (py_truthy flag); [done|].
    rewrite Huflag, ret_bind. cbv beta.
    destruct (py_truthy uflag); [done|].
    cbn [format_runs] in Hruns.
    destruct (d !! lit "textFormatRuns") as [v|]; [|by destruct before].
    destruct v; try by destruct before. subst l. red_py.
    by rewrite (runs_loop_prefix _ _ _ Hbefore Hrun).
  - destruct (cell_checks cell) as [b|] eqn:H; [|discriminate]. intros ->.
    destruct (cell_checks_dict _ _ H) as [d ->].
    rewrite cell_checks_unfold in H.
    apply bind_Ok in H as (flag & Hflag & H).
    pose proof (format_lookup_readable _ _ _ Hflag) as Hr.
    apply format_lookup_Ok in Hflag. fold (effective_flag (PDict d)) in Hflag.
    rewrite <- Hflag. destruct (py_truthy flag); [by left|]. right.
    apply bind_Ok in H as (uflag & Huflag & H).
    pose proof (format_lookup_readable _ _ _ Huflag) as Hur.
    apply format_lookup_Ok in Huflag. fold (user_entered_flag (PDict d)) in Huflag.
    rewrite <- Huflag. destruct (py_truthy uflag); [by left|]. right.
    split; [done|]. split; [done|].
    apply bind_Ok in H as (runs & Hiter & H). cbn [format_runs].
    destruct (d !! lit "textFormatRuns") as [v|]; simpl in Hiter.
    + destruct (as_list v) as [l|] eqn:Hv.
      * destruct v; try discriminate Hv. injection Hv as ->. injection Hiter as <-.
        by apply runs_loop_true_prefix.
      * exfalso. by eapply runs_loop_not_list.
    + by injection Hiter as <-.
Qed.

Lemma check_cell_strikethrough_any_source_witness :
  check_cell_strikethrough (one_cell_document effective_struck_cell) (lit "Questions") 1 0
  = true
  /\ check_cell_strikethrough (one_cell_document user_struck_cell) (lit "Questions") 1 0
     = true
  /\ check_cell_strikethrough (one_cell_document partly_struck_cell) (lit "Questions") 1 0
     = true.
Proof.
  split; [|split].
  - refine (proj1 (check_cell_strikethrough_any_source
              (one_cell_document effective_struck_cell) (lit "Questions") 1 0
              effective_struck_cell _) _); vm_compute; reflexivity.
  - refine (proj1 (proj2 (check_cell_strikethrough_any_source
              (one_cell_document user_struck_cell) (lit "Questions") 1 0
              user_struck_cell _)) _ _); vm_compute; reflexivity.
  - refine (proj1 (proj2 (proj2 (check_cell_strikethrough_any_source
              (one_cell_document partly_struck_cell) (lit "Questions") 1 0
              partly_struck_cell _))) _ _
              [dict_of [("format", dict_of [("bold", PBool true)])]%string]
              (dict_of [("startIndex", PInt 5);
                        ("format", dict_of [("strikethrough", PBool true)])]%string)
              [] _ _ _); vm_compute; reflexivity.
Defined.

End Inspector.





(** ** Text Marker Analyzer *)

Section Count.

(** The pattern that is counted; it is not empty. *)
Variables (c0 : pychar) (sub' : pystr).
Local Abbreviation sub := (c0 :: sub').

Lemma count_scan_skip k s :
  count_scan sub k s = count_scan sub 0 (drop k s).
Proof.
  revert k. induction s as [|x rest IH]; intros k.
  - by rewrite drop_nil.
  - destruct k as [|k]; [done|]. simpl. apply IH.
Qed.

Lemma count_scan_cons x rest :
  count_scan sub 0 (x :: rest)
  = if is_prefix sub (x :: rest)
    then S (count_scan sub 0 (drop (length sub') rest))
    else count_scan sub 0 rest.
Proof.
  cbn [count_scan]. destruct (is_prefix sub (x :: rest)); [|done].
  rewrite count_scan_skip. do 3 f_equal. simpl. lia.
Qed.

(** Dropping a prefix of the text never adds an occurrence, and dropping at
    most the length of the pattern loses at most one. *)
Lemma count_scan_drop n :
  forall s, (length s <= n)%nat ->
    (forall j, (count_scan sub 0 (drop j s) <= count_scan sub 0 s)%nat)
    /\ (forall j, (j <= length sub)%nat ->
          (count_scan sub 0 s <= S (count_scan sub 0 (drop j s)))%nat).
Proof.
  induction n as [|n IH]; intros s Hlen.
  - destruct s; [|simpl in Hlen; lia]. split; intros j; rewrite drop_nil; simpl; lia.
  - destruct s as [|x rest].
    { split; intros j; rewrite drop_nil; simpl; lia. }
    simpl in Hlen. assert (Hrest : (length rest <= n)%nat) by lia.
    destruct (IH rest Hrest) as [IHa IHb].
    assert (Htail : (count_scan sub 0 rest <= count_scan sub 0 (x :: rest))%nat).
    { rewrite count_scan_cons. destruct (is_prefix sub (x :: rest)); [|lia].
      apply IHb. simpl. lia. }
    split; intros j.
    + destruct j as [|j]; [rewrite drop_0; lia|]. cbn [drop].
      etrans; [apply IHa|exact Htail].
    + intros Hj. destruct j as [|j]; [rewrite drop_0; lia|]. cbn [drop].
      rewrite count_scan_cons. destruct (is_prefix sub (x :: rest)).
      * apply le_n_S. simpl in Hj.
        replace (length sub') with (j + (length sub' - j))%nat by lia.
        rewrite <- drop_drop.
        apply (IH (drop j rest)). rewrite length_drop. lia.
      * apply IHb. simpl in Hj |- *. lia.
Qed.

Lemma is_prefix_app p rest : is_prefix p (p ++ rest) = true.
Proof. induction p as [|a p IH]; [by destruct rest|]. simpl. by rewrite N.eqb_refl. Qed.

(** An occurrence anywhere in the text is counted, on top of what is
    counted after it. *)
Lemma count_scan_occurrence a rest :
  (S (count_scan sub 0 rest) <= count_scan sub 0 (a ++ sub ++ rest))%nat.
Proof.
  induction a as [|x a IH].
  - change ([] ++ sub ++ rest) with (c0 :: (sub' ++ rest)).
    rewrite count_scan_cons.
    change (c0 :: (sub' ++ rest)) with (sub ++ rest). rewrite is_prefix_app.
    by rewrite drop_app_length.
  - etrans; [exact IH|].
    pose proof (count_scan_drop _ ((x :: a) ++ sub ++ rest) (le_n _)) as [Ha _].
    apply (Ha 1%nat).
Qed.

Lemma count_scan_two a b c :
  (2 <= count_scan sub 0 (a ++ sub ++ b ++ sub ++ c))%nat.
Proof.
  etrans; [|apply count_scan_occurrence].
  apply le_n_S. etrans; [|apply count_scan_occurrence]. lia.
Qed.

End Count.

Section Analyzer.

Context `{StrUpper}.

(** C6: [analyze_text_with_manual_indicators] answers [False] on every
    input that is not a string and on the empty string, and [True] on every
    string that holds two occurrences of ["~~"] (one after the other, not
    overlapping), whatever the marker vocabulary gives. *)
Theorem analyze_text_with_manual_indicators_tildes :
  (forall v, is_str v = false -> analyze_text_with_manual_indicators v = false)
  /\ analyze_text_with_manual_indicators (PStr []) = false
  /\ (forall a b c,
        analyze_text_with_manual_indicators
          (PStr (a ++ lit "~~" ++ b ++ lit "~~" ++ c)) = true).
Proof.
  split; [|split].
  - intros v Hv. unfold analyze_text_with_manual_indicators. rewrite Hv.
    by rewrite orb_true_r.
  - reflexivity.
  - intros a b c. unfold analyze_text_with_manual_indicators.
    assert (Hlen : py_truthy (PStr (a ++ lit "~~" ++ b ++ lit "~~" ++ c)) = true).
    { simpl. rewrite !length_app. by destruct (length a). }
    rewrite Hlen. cbn [negb orb is_str].
    destruct (existsb _ completion_indicators); [done|].
    pose proof (count_scan_two 126%N [126%N] a b c) as Hcount%Nat.leb_le.
    change (lit "~~") with [126%N; 126%N]. cbn [str_count].
    match goal with
    | |- (if ?x then _ else _) = _ => replace x with true by (symmetry; exact Hcount)
    end.
    reflexivity.
Qed.

End Analyzer.

Lemma analyze_text_with_manual_indicators_tildes_witness :
  @analyze_text_with_manual_indicators ascii_upper PNone = false
  /\ @analyze_text_with_manual_indicators ascii_upper
       (PStr (lit "see " ++ lit "~~" ++ lit "old" ++ lit "~~" ++ lit " text")) = true.
Proof.
  destruct (@analyze_text_with_manual_indicators_tildes ascii_upper) as (Hnot & _ & Htildes).
  split; [apply Hnot; reflexivity|apply Htildes].
Defined.

(** Three tildes hold one occurrence of the delimiter, not two. *)
Example three_tildes_not_marked :
  @analyze_text_with_manual_indicators ascii_upper (PStr (lit "~~~")) = false.
Proof. reflexivity. Qed.

(** ** Question Extractor *)

Section Extractor.

Context `{StrUpper}.

Lemma strip_truthy cell :
  py_truthy (PStr cell) && py_truthy (PStr (strip cell))
  = negb (bool_decide (strip cell = [])).
Proof.
  destruct cell as [|x cell]; [done|]. cbn [py_truthy length Nat.eqb negb andb].
  by destruct (strip (x :: cell)).
Qed.

(** One iteration adds the record of the row, if it has one. *)
Lemma visit_row_spec doc values col st i :
  visit_row doc values col st i
  = match record_at doc values col i with
    | Some q =>
        {| group4_data := group4_data st ++ [q];
           done_acc := if is_crossed_out q then done_acc st ++ [q] else done_acc st;
           todo_acc := if is_crossed_out q then todo_acc st else todo_acc st ++ [q];
           calls := calls st ++ calls_at doc values col i |}
    | None => st
    end.
Proof.
  unfold visit_row, calls_at, record_at, data_cell.
  destruct (values !! i) as [row|]; [|done]. cbn [mbind option_bind].
  destruct (col <? length row)%nat eqn:E; cbn [negb].
  2:{ apply Nat.ltb_ge in E. by rewrite (proj2 (lookup_ge_None _ _) E). }
  destruct (row !! col) as [cell|]; [|done]. cbn [mbind option_bind].
  rewrite strip_truthy. destruct (bool_decide (strip cell = [])); [done|].
  cbn [negb]. unfold detected_record.
  destruct (check_cell_strikethrough doc (lit "Questions") (Z.of_nat i) (Z.of_nat col));
    reflexivity.
Qed.

Lemma rows_fold doc values col idxs st :
  let st' := fold_left (visit_row doc values col) idxs st in
  group4_data st' = group4_data st ++ omap (record_at doc values col) idxs
  /\ done_acc st'
     = done_acc st ++ List.filter is_crossed_out (omap (record_at doc values col) idxs)
  /\ todo_acc st'
     = todo_acc st
       ++ List.filter (fun q => negb (is_crossed_out q)) (omap (record_at doc values col) idxs)
  /\ calls st' = calls st ++ flat_map (calls_at doc values col) idxs.
Proof.
  revert st. induction idxs as [|i idxs IH]; intros st.
  - cbn. by rewrite !app_nil_r.
  - cbn [fold_left flat_map]. destruct (IH (visit_row doc values col st i)) as (Hg & Hd & Ht & Hc).
    cbv zeta. rewrite Hg, Hd, Ht, Hc. clear IH Hg Hd Ht Hc.
    rewrite visit_row_spec. cbn [omap list_omap].
    destruct (record_at doc values col i) as [q|] eqn:Hq.
    + cbn [group4_data done_acc todo_acc calls List.filter].
      destruct (is_crossed_out q); cbn [negb]; by rewrite <- !app_assoc.
    + unfold calls_at at 2. by rewrite Hq.
Qed.

(** The list fields of a run, from the rows of the grid. *)
Lemma rows_loop_spec doc values col :
  let recs := omap (record_at doc values col) (seq 1 (length values - 1)) in
  group4_data (rows_loop doc values col) = recs
  /\ done_acc (rows_loop doc values col) = List.filter is_crossed_out recs
  /\ todo_acc (rows_loop doc values col)
     = List.filter (fun q => negb (is_crossed_out q)) recs
  /\ calls (rows_loop doc values col)
     = flat_map (calls_at doc values col) (seq 1 (length values - 1)).
Proof. apply rows_fold. Qed.

(** A success result comes from a grid whose header names the column. *)
Lemma parse_success_inv now url creds source :
  status (parse_group4_questions now url creds source) = success ->
  exists header rows doc col,
    source = SourceData (Some (header :: rows)) doc
    /\ find_group4_column 0 header = Some col
    /\ parse_group4_questions now url creds source
       = let st := rows_loop doc (header :: rows) col in
         {| status := success;
            message := None;
            timestamp := now;
            sheet_url := Some url;
            group4_column_index := Some (Z.of_nat col + 1);
            total_questions := len (group4_data st);
            done_count := Some (len (done_acc st));
            todo_count := Some (len (todo_acc st));
            has_new_questions := 0 <? len (todo_acc st);
            done_questions := done_acc st;
            todo_questions := todo_acc st;
            all_questions := Some (group4_data st) |}.
Proof.
  unfold parse_group4_questions.
  destruct (negb (py_truthy (from_option PStr PNone creds))); [by cbn [status error_result]|].
  destruct source as [e|[[|header rows]|] doc]; try by cbn [status error_result].
  destruct (find_group4_column 0 header) as [col|] eqn:Hcol; [|by cbn [status error_result]].
  intros _. by exists header, rows, doc, col.
Qed.

Lemma record_at_Some doc values col i q :
  record_at doc values col i = Some q <->
  exists row cell,
    values !! i = Some row /\ row !! col = Some cell /\ strip cell <> []
    /\ q = detected_record doc col i cell.
Proof.
  unfold record_at, data_cell. split.
  - destruct (values !! i) as [row|]; [|discriminate]. cbn [mbind option_bind].
    destruct (row !! col) as [cell|] eqn:Hcell; [|discriminate]. cbn [mbind option_bind].
    case_bool_decide; [discriminate|]. intros [= <-]. by exists row, cell.
  - intros (row & cell & -> & Hcell & Hne & ->). cbn [mbind option_bind].
    rewrite Hcell. cbn [mbind option_bind]. by rewrite bool_decide_eq_false_2.
Qed.

Lemma row_numbers_sublist doc values col idxs :
  sublist (row_number <$> omap (record_at doc values col) idxs)
          ((fun i => Z.of_nat i + 1) <$> idxs).
Proof.
  induction idxs as [|i idxs IH]; [constructor|]. cbn [omap list_omap fmap list_fmap].
  destruct (record_at doc values col i) as [q|] eqn:Hq.
  - apply record_at_Some in Hq as (row & cell & _ & _ & _ & ->). by apply sublist_skip.
  - by apply sublist_cons.
Qed.

Lemma detection_trace_rows doc values col idxs :
  detection_trace doc (flat_map (calls_at doc values col) idxs).
Proof.
  induction idxs as [|i idxs IH]; [constructor|]. cbn [flat_map].
  unfold calls_at at 1.
  destruct (record_at doc values col i); [|done].
  destruct (data_cell values col i) as [cell|]; [|done]. cbv zeta.
  destruct (check_cell_strikethrough _ _ _ _) eqn:Hcheck.
  - by apply trace_formatting.
  - by apply trace_fallback.
Qed.

Lemma parse_error_inv now url creds source :
  status (parse_group4_questions now url creds source) = error ->
  exists msg, parse_group4_questions now url creds source = error_result now msg.
Proof.
  unfold parse_group4_questions.
  destruct (negb (py_truthy (from_option PStr PNone creds))); [eauto|].
  destruct source as [e|[[|header rows]|] doc]; eauto.
  destruct (find_group4_column 0 header); [discriminate|eauto].
Qed.

(** A success result carries both counts. *)
Lemma parse_success_counts now url creds source :
  let result := parse_group4_questions now url creds source in
  status result = success ->
  done_count result = Some (len (done_questions result))
  /\ todo_count result = Some (len (todo_questions result))
  /\ total_questions result = len (done_questions result) + len (todo_questions result).
Proof.
  intros result (header & rows & doc & col & _ & _ & Hr)%parse_success_inv.
  subst result. rewrite Hr.
  cbn [done_count todo_count total_questions done_questions todo_questions].
  split; [done|]. split; [done|].
  destruct (rows_loop_spec doc (header :: rows) col) as (-> & -> & -> & _).
  set (recs := omap _ _). unfold len. induction recs as [|q recs IH]; [done|].
  cbn [List.filter]. destruct (is_crossed_out q); cbn [negb length] in *; lia.
Qed.

(** C9: in a success result there is a record exactly for the data rows
    (index at least 1) whose target-column cell is in bounds and trims to a
    non-empty text; the record's text is the trimmed cell and its row number
    the grid index plus one, and no row has two records. *)
Theorem record_per_nonempty_cell now url creds source :
  status (parse_group4_questions now url creds source) = success ->
  exists values doc col qs,
    source = SourceData (Some values) doc
    /\ (values !! 0%nat) ≫= find_group4_column 0 = Some col
    /\ all_questions (parse_group4_questions now url creds source) = Some qs
    /\ (forall n t,
          (exists q, q ∈ qs /\ row_number q = n /\ text q = t) <->
          (exists i row cell,
              (1 <= i)%nat /\ values !! i = Some row /\ row !! col = Some cell
              /\ strip cell <> [] /\ n = Z.of_nat i + 1 /\ t = strip cell))
    /\ NoDup (row_number <$> qs).
Proof.
  intros (header & rows & doc & col & -> & Hcol & ->)%parse_success_inv.
  destruct (rows_loop_spec doc (header :: rows) col) as (Hg & _).
  exists (header :: rows), doc, col, (group4_data (rows_loop doc (header :: rows) col)).
  split; [done|]. split; [done|]. split; [done|]. rewrite Hg. split.
  - intros n t. split.
    + intros (q & (i & Hi & Hq)%list_elem_of_omap & <- & <-).
      apply elem_of_seq in Hi.
      apply record_at_Some in Hq as (row & cell & Hrow & Hcell & Hne & ->).
      exists i, row, cell. by repeat split; try lia.
    + intros (i & row & cell & Hi & Hrow & Hcell & Hne & -> & ->).
      exists (detected_record doc col i cell). split; [|done].
      apply list_elem_of_omap. exists i. split.
      * apply elem_of_seq. apply lookup_lt_Some in Hrow. lia.
      * apply record_at_Some. by exists row, cell.
  - eapply sublist_NoDup; [|apply row_numbers_sublist].
    apply NoDup_fmap_2_strong; [|apply NoDup_seq]. intros; lia.
Qed.

Lemma data_cell_Some (values : grid) col i cell :
  data_cell values col i = Some cell ->
  exists row, values !! i = Some row /\ row !! col = Some cell.
Proof.
  unfold data_cell. destruct (values !! i) as [row|]; [|discriminate]. eauto.
Qed.

(** The calls of a row that has a record: the inspector, the analyzer when
    the inspector answered [False], the inspector again. *)
Lemma calls_at_cell doc values col i cell :
  data_cell values col i = Some cell -> strip cell <> [] ->
  calls_at doc values col i
  = let inspected :=
      check_cell_strikethrough doc (lit "Questions") (Z.of_nat i) (Z.of_nat col) in
    InspectorCall (Z.of_nat i) (Z.of_nat col) inspected
    :: (if inspected then []
        else [AnalyzerCall cell (analyze_text_with_manual_indicators (PStr cell))])
    ++ [InspectorCall (Z.of_nat i) (Z.of_nat col) inspected].
Proof.
  intros Hcell Hne. unfold calls_at, record_at. rewrite Hcell. cbn [mbind option_bind].
  by rewrite bool_decide_eq_false_2.
Qed.

(** C1: for every non-empty data-row cell the inspector is evaluated first
    and the analyzer only after the inspector answered [False]; the cell has
    a record, and when the formatting signal is true that record is crossed
    out and its [formatting_source] is [api_formatting], whatever the text
    holds.  Every record comes from such a cell. *)
Theorem formatting_signal_takes_precedence now url creds source :
  status (parse_group4_questions now url creds source) = success ->
  exists values doc col qs,
    source = SourceData (Some values) doc
    /\ (values !! 0%nat) ≫= find_group4_column 0 = Some col
    /\ all_questions (parse_group4_questions now url creds source) = Some qs
    /\ detector_calls source
       = flat_map (calls_at doc values col) (seq 1 (length values - 1))
    /\ detection_trace doc (detector_calls source)
    /\ (forall i cell,
          (1 <= i)%nat -> data_cell values col i = Some cell -> strip cell <> [] ->
          let inspected :=
            check_cell_strikethrough doc (lit "Questions") (Z.of_nat i) (Z.of_nat col) in
          exists q before after,
            q ∈ qs /\ row_number q = Z.of_nat i + 1 /\ text q = strip cell
            /\ detector_calls source
               = before
                 ++ InspectorCall (Z.of_nat i) (Z.of_nat col) inspected
                    :: (if inspected then []
                        else [AnalyzerCall cell
                                (analyze_text_with_manual_indicators (PStr cell))])
                 ++ [InspectorCall (Z.of_nat i) (Z.of_nat col) inspected]
                 ++ after
            /\ (inspected = true ->
                formatting_source q = api_formatting /\ is_crossed_out q = true)
            /\ (inspected = false ->
                formatting_source q = manual_indicators
                /\ is_crossed_out q = analyze_text_with_manual_indicators (PStr cell)))
    /\ forall q, q ∈ qs ->
         exists i cell,
           data_cell values col i = Some cell /\ row_number q = Z.of_nat i + 1
           /\ let inspected :=
                check_cell_strikethrough doc (lit "Questions") (Z.of_nat i) (Z.of_nat col) in
              (inspected = true ->
               formatting_source q = api_formatting /\ is_crossed_out q = true)
              /\ (inspected = false ->
                  formatting_source q = manual_indicators
                  /\ is_crossed_out q = analyze_text_with_manual_indicators (PStr cell)).
Proof.
  intros (header & rows & doc & col & -> & Hcol & ->)%parse_success_inv.
  destruct (rows_loop_spec doc (header :: rows) col) as (Hg & _ & _ & Hc).
  exists (header :: rows), doc, col, (group4_data (rows_loop doc (header :: rows) col)).
  split; [done|]. split; [done|]. split; [done|].
  assert (Hcalls : detector_calls (SourceData (Some (header :: rows)) doc)
                   = flat_map (calls_at doc (header :: rows) col)
                       (seq 1 (length (header :: rows) - 1))).
  { unfold detector_calls. by rewrite Hcol, Hc. }
  split; [exact Hcalls|]. split; [|split].
  - rewrite Hcalls. apply detection_trace_rows.
  - intros i cell Hi Hcell Hne inspected.
    assert (Hq : record_at doc (header :: rows) col i
                 = Some (detected_record doc col i cell)).
    { destruct (data_cell_Some _ _ _ _ Hcell) as (row & Hrow & Hrc).
      apply record_at_Some. by exists row, cell. }
    assert (Hin : i ∈ seq 1 (length (header :: rows) - 1)).
    { apply elem_of_seq. destruct (data_cell_Some _ _ _ _ Hcell) as (row & Hrow & _).
      apply lookup_lt_Some in Hrow. lia. }
    apply list_elem_of_split in Hin as (l1 & l2 & Hsplit).
    exists (detected_record doc col i cell),
      (flat_map (calls_at doc (header :: rows) col) l1),
      (flat_map (calls_at doc (header :: rows) col) l2).
    split.
    { rewrite Hg. apply list_elem_of_omap. exists i. split; [|done].
      rewrite Hsplit. apply elem_of_app. right. apply elem_of_cons. by left. }
    split; [done|]. split; [done|]. split.
    { rewrite Hcalls, Hsplit, flat_map_app. cbn [flat_map].
      rewrite (calls_at_cell _ _ _ _ _ Hcell Hne). cbv zeta. fold inspected.
      cbn [app]. f_equal. f_equal. by rewrite <- !app_assoc. }
    unfold detected_record. cbn [formatting_source is_crossed_out]. fold inspected.
    by split; intros ->.
  - rewrite Hg. intros q (i & _ & Hq)%list_elem_of_omap.
    apply record_at_Some in Hq as (row & cell & Hrow & Hcell & _ & ->).
    exists i, cell. split.
    { unfold data_cell. rewrite Hrow. exact Hcell. }
    split; [done|]. unfold detected_record. cbn [formatting_source is_crossed_out].
    by split; intros ->.
Qed.

(** C8: in a success result [has_new_questions] is true exactly when the
    todo list is not empty, that is when [todo_count] is positive; only the
    current todo list enters. *)
Theorem has_new_questions_iff_todo now url creds source :
  let result := parse_group4_questions now url creds source in
  status result = success ->
  (has_new_questions result = true <-> todo_questions result <> [])
  /\ todo_count result = Some (len (todo_questions result))
  /\ (has_new_questions result = true <-> exists n, todo_count result = Some n /\ 0 < n).
Proof.
  intros result (header & rows & doc & col & _ & _ & Hr)%parse_success_inv.
  subst result. rewrite Hr. cbn [has_new_questions todo_questions todo_count].
  set (todo := todo_acc _). rewrite Z.ltb_lt. unfold len. split; [|split].
  - destruct todo; [simpl; split; [lia|done]|]. rewrite length_cons. split; [done|lia].
  - done.
  - split; [eauto|]. by intros (n & [= <-] & Hn).
Qed.

(** C10: on every result of [parse_group4_questions] the composer selects
    red for an error, orange when the todo list is not empty and green when it
    is empty; the blue branch is never taken. *)
Theorem blue_unreachable now url creds source :
  let result := parse_group4_questions now url creds source in
  exists color,
    select_color result = Ok color /\ color <> blue
    /\ (status result = error -> color = red)
    /\ (status result = success -> todo_questions result <> [] -> color = orange)
    /\ (status result = success -> todo_questions result = [] -> color = green).
Proof.
  intros result. destruct (status result) eqn:Hstatus; subst result.
  - pose proof Hstatus as (header & rows & doc & col & _ & _ & Hr)%parse_success_inv.
    clear Hstatus. rewrite Hr. unfold select_color.
    cbn [status has_new_questions todo_questions todo_count].
    set (todo := todo_acc _). destruct todo as [|q todo].
    + exists green. by repeat split.
    + exists orange. by repeat split.
  - pose proof Hstatus as [msg Hr]%parse_error_inv. rewrite Hr.
    exists red. by repeat split.
Qed.

(** C2, on the code: when the column cannot be resolved or the source
    fails, the result has [status] error, a message (naming the column when
    it is the column that is missing), empty done and todo lists and
    [total_questions] zero; but the keys [done_count], [todo_count] and
    [all_questions] are absent, and the summary that [main] builds from the
    result raises [KeyError]. *)
Theorem error_result_lacks_counts now url creds source :
  let result := parse_group4_questions now url creds source in
  source_unusable source ->
  status result = error
  /\ (exists msg, message result = Some msg)
  /\ (py_truthy (from_option PStr PNone creds) = true ->
      forall header rows doc, source = SourceData (Some (header :: rows)) doc ->
      message result = Some (lit "Group 4 column not found"))
  /\ done_questions result = [] /\ todo_questions result = []
  /\ total_questions result = 0
  /\ done_count result = None /\ todo_count result = None
  /\ all_questions result = None
  /\ main_summary result = Raise (KeyError (PStr (lit "todo_count"))).
Proof.
  intros result Hsource.
  assert (Hstatus : status result = error).
  { subst result. unfold parse_group4_questions.
    destruct (negb (py_truthy (from_option PStr PNone creds))); [done|].
    destruct source as [e|[[|header rows]|] doc]; try done.
    cbn in Hsource. by rewrite Hsource. }
  split; [done|].
  assert (Hmsg : py_truthy (from_option PStr PNone creds) = true ->
    forall header rows doc, source = SourceData (Some (header :: rows)) doc ->
    message result = Some (lit "Group 4 column not found")).
  { intros Hcreds header rows doc ->. subst result. unfold parse_group4_questions.
    rewrite Hcreds. cbn [negb]. cbn in Hsource. by rewrite Hsource. }
  apply parse_error_inv in Hstatus as [msg Hr]. fold result in Hr.
  clearbody result. subst result. cbn [message error_result] in Hmsg |- *.
  repeat split; eauto.
Qed.

End Extractor.

Lemma record_per_nonempty_cell_witness :
  exists values doc col qs,
    SourceData (Some sample_grid) (one_cell_document user_struck_cell)
    = SourceData (Some values) doc
    /\ (values !! 0%nat) ≫= find_group4_column 0 = Some col
    /\ all_questions (sample_run sample_grid) = Some qs
    /\ (forall n t,
          (exists q, q ∈ qs /\ row_number q = n /\ text q = t) <->
          (exists i row cell,
              (1 <= i)%nat /\ values !! i = Some row /\ row !! col = Some cell
              /\ strip cell <> [] /\ n = Z.of_nat i + 1 /\ t = strip cell))
    /\ NoDup (row_number <$> qs).
Proof.
  apply (@record_per_nonempty_cell ascii_upper). vm_compute. reflexivity.
Defined.

Lemma formatting_signal_takes_precedence_witness :
  check_cell_strikethrough marked_document (lit "Questions") 1 1 = true
  /\ @analyze_text_with_manual_indicators ascii_upper (PStr (lit "[DONE] first")) = true
  /\ exists qs q before after,
       all_questions
         (@parse_group4_questions ascii_upper (lit "2024-01-01T00:00:00") (lit "sheet")
            (Some (lit "{}")) marked_source) = Some qs
       /\ q ∈ qs /\ row_number q = 2 /\ text q = lit "[DONE] first"
       /\ formatting_source q = api_formatting /\ is_crossed_out q = true
       /\ @detector_calls ascii_upper marked_source
          = before ++ [InspectorCall 1 1 true; InspectorCall 1 1 true] ++ after.
Proof.
  split; [vm_compute; reflexivity|]. split; [vm_compute; reflexivity|].
  destruct (@formatting_signal_takes_precedence ascii_upper (lit "2024-01-01T00:00:00")
              (lit "sheet") (Some (lit "{}")) marked_source)
    as (values & doc & col & qs & Hsource & Hcol & Hqs & _ & _ & Hcells & _).
  { vm_compute. reflexivity. }
  injection Hsource as <- <-.
  assert (Hcol' : col = 1%nat).
  { vm_compute in Hcol. by injection Hcol as <-. }
  subst col.
  destruct (Hcells 1%nat (lit "[DONE] first"))
    as (q & before & after & Hq & Hrow & Htext & Hcalls & Htrue & _).
  { lia. }
  { vm_compute. reflexivity. }
  { vm_compute. discriminate. }
  assert (Hinspected :
    check_cell_strikethrough marked_document (lit "Questions") (Z.of_nat 1) (Z.of_nat 1)
    = true) by (vm_compute; reflexivity).
  destruct (Htrue Hinspected) as [Htag Hcrossed].
  rewrite Hinspected in Hcalls.
  exists qs, q, before, after. split; [exact Hqs|]. split; [exact Hq|].
  split; [exact Hrow|]. split; [exact Htext|]. split; [exact Htag|].
  split; [exact Hcrossed|]. exact Hcalls.
Defined.

Lemma blue_unreachable_witness :
  exists color,
    select_color (sample_run sample_grid) = Ok color /\ color <> blue
    /\ (status (sample_run sample_grid) = error -> color = red)
    /\ (status (sample_run sample_grid) = success ->
        todo_questions (sample_run sample_grid) <> [] -> color = orange)
    /\ (status (sample_run sample_grid) = success ->
        todo_questions (sample_run sample_grid) = [] -> color = green).
Proof. apply (@blue_unreachable ascii_upper). Defined.

Lemma has_new_questions_iff_todo_witness :
  (has_new_questions (sample_run sample_grid) = true
   <-> todo_questions (sample_run sample_grid) <> [])
  /\ todo_count (sample_run sample_grid)
     = Some (len (todo_questions (sample_run sample_grid)))
  /\ (has_new_questions (sample_run sample_grid) = true
      <-> exists n, todo_count (sample_run sample_grid) = Some n /\ 0 < n).
Proof.
  apply (@has_new_questions_iff_todo ascii_upper). vm_compute. reflexivity.
Defined.

Lemma error_result_lacks_counts_witness :
  status (sample_run no_column_grid) = error
  /\ done_count (sample_run no_column_grid) = None
  /\ todo_count (sample_run no_column_grid) = None
  /\ main_summary (sample_run no_column_grid) = Raise (KeyError (PStr (lit "todo_count"))).
Proof.
  pose proof (@error_result_lacks_counts ascii_upper (lit "2024-01-01T00:00:00")
    (lit "sheet") (Some (lit "{}"))
    (SourceData (Some no_column_grid) (one_cell_document user_struck_cell))) as Hw.
  cbv zeta in Hw. fold (sample_run no_column_grid) in Hw.
  destruct Hw as (Hs & _ & _ & _ & _ & _ & Hd & Ht & _ & Hm).
  - vm_compute. reflexivity.
  - auto.
Defined.

(** ** Notification Composer *)

Section Composer.

Lemma trimmed_text_spec q :
  trimmed_text q
  = if len (text q) <=? 60 then text q else take 60 (text q) ++ lit "...".
Proof.
  unfold trimmed_text, len. destruct (Z.of_nat (length (text q)) <=? 60) eqn:E.
  - apply Z.leb_le in E. rewrite take_ge by lia.
    rewrite (proj2 (Z.ltb_ge _ _) E). apply app_nil_r.
  - apply Z.leb_gt in E. by rewrite (proj2 (Z.ltb_lt _ _) E).
Qed.

Lemma done_text_concat (l : list question) acc :
  fold_left (fun acc q => acc ++ lit "~~" ++ trimmed_text q ++ lit "~~" ++ [10%N]) l acc
  = acc ++ concat (map shown_entry l).
Proof.
  revert acc. induction l as [|q l IH]; intros acc; cbn [fold_left map concat].
  - by rewrite app_nil_r.
  - rewrite IH, <- app_assoc. f_equal. unfold shown_entry.
    by rewrite trimmed_text_spec, <- !app_assoc.
Qed.

Lemma done_text_nonempty (done : list question) :
  done <> [] -> done_text done <> [].
Proof.
  intros Hdone. unfold done_text. rewrite done_text_concat.
  destruct (drop (length done - 3) done) as [|q l] eqn:E.
  - apply (f_equal length) in E. rewrite length_drop in E. destruct done; [done|].
    simpl in E. lia.
  - by cbn.
Qed.

Lemma last_three_split {A} (l : list A) :
  l = take (length l - 3) l ++ drop (length l - 3) l
  /\ length (drop (length l - 3) l) = (length l `min` 3)%nat.
Proof. split; [by rewrite take_drop|rewrite length_drop; lia]. Qed.

(** C7, as stated, fails: with no done entry the primary block has no
    "Recently completed" field and no field shows a placeholder. *)
Lemma recently_completed_absent_without_done :
  done_questions (sample_run todo_only_grid) = []
  /\ exists p main,
       build_payload (sample_run todo_only_grid) = Ok p
       /\ head (embeds p) = Some main
       /\ List.filter (fun f => bool_decide (name f = recently_completed_name))
            (embed_fields main) = []
       /\ List.filter (fun f => bool_decide (value f = lit "None")) (embed_fields main) = [].
Proof.
  split; [vm_compute; reflexivity|]. eexists _, _.
  split; [vm_compute; reflexivity|]. split; [reflexivity|].
  split; vm_compute; reflexivity.
Qed.

(** The last 3 entries of a list are determined by their number. *)
Lemma last_three_unique {A} (l earlier shown : list A) :
  l = earlier ++ shown -> length shown = (length l `min` 3)%nat ->
  shown = drop (length l - 3) l.
Proof.
  intros -> Hlen. rewrite length_app in Hlen |- *.
  rewrite drop_app_length'; [done|]. lia.
Qed.

(** The summary and the alert do not show the placeholder. *)
Lemma starred_not_placeholder (s : pystr) :
  is_prefix (lit "**") s = true -> s <> lit "None".
Proof. intros Hs ->. vm_compute in Hs. discriminate Hs. Qed.

(** C7 (amended): the primary block of a success result is built.  When
    there is at least one done entry, its last field is "Recently completed"
    and its value is made of the last 3 done entries in list order, each
    truncated to 60 characters with an ellipsis exactly when it is longer
    than 60 characters and wrapped in strikethrough delimiters.  When there
    is no done entry, no field is named "Recently completed" and no field
    shows a placeholder. *)
Theorem recently_completed_field color result :
  status result = success ->
  is_Some (done_count result) -> is_Some (todo_count result) ->
  exists e,
    main_embed color result = Ok e
    /\ (done_questions result <> [] ->
        exists fs earlier shown,
          embed_fields e
          = fs ++ [{| name := recently_completed_name;
                      value := concat (map shown_entry shown);
                      inline := false |}]
          /\ Forall (fun f => name f <> recently_completed_name) fs
          /\ done_questions result = earlier ++ shown
          /\ length shown = (length (done_questions result) `min` 3)%nat)
    /\ (done_questions result = [] ->
        Forall (fun f => name f <> recently_completed_name /\ value f <> lit "None")
          (embed_fields e)).
Proof.
  intros Hstatus [d Hd] [t Ht]. unfold main_embed. rewrite Hstatus, Hd, Ht.
  assert (Hstar : forall rest, lit "**" ++ rest <> lit "None").
  { intros rest. apply starred_not_placeholder. by apply is_prefix_app. }
  assert (Hsummary : forall rest, lit "**Total Questions:** " ++ rest <> lit "None").
  { intros rest. apply starred_not_placeholder.
    change (lit "**Total Questions:** ") with (lit "**" ++ lit "Total Questions:** ").
    rewrite <- app_assoc. by apply is_prefix_app. }
  destruct (done_questions result) as [|q done] eqn:Hdone.
  - cbn [list_truthy length Nat.eqb negb].
    destruct (has_new_questions result); cbn [key mbind res_bind];
      eexists; (split; [reflexivity|]); (split; [done|]); intros _;
      cbn [embed_fields app]; repeat constructor; cbn [name value]; try done;
      try apply Hstar; apply Hsummary.
  - assert (Hne : q :: done <> []) by done. rewrite <- Hdone in Hne |- *.
    clear q done Hdone.
    pose proof (done_text_nonempty _ Hne) as Htext.
    destruct (last_three_split (done_questions result)) as [Hsplit Hlen].
    assert (Hshown : done_text (done_questions result)
                     = concat (map shown_entry
                         (drop (length (done_questions result) - 3) (done_questions result)))).
    { unfold done_text. by rewrite done_text_concat. }
    assert (Htruthy : list_truthy (done_questions result) = true).
    { unfold list_truthy. by destruct (done_questions result). }
    assert (Hvalue : py_truthy (PStr (done_text (done_questions result))) = true).
    { simpl. by destruct (done_text (done_questions result)). }
    rewrite Htruthy, Hvalue, Hshown.
    destruct (has_new_questions result); cbn [key mbind res_bind];
      eexists; (split; [reflexivity|]); (split; [|done]); intros _;
      eexists _, _, _; cbn [embed_fields];
      (split; [rewrite app_assoc; reflexivity|]); (split; [|done]).
    + by repeat constructor.
    + destruct (t =? 0); by repeat constructor.
Qed.

(** *** Packing of the todo entries *)

Lemma pack_from_concat cur lines : concat (pack_from cur lines) = cur ++ lines.
Proof.
  revert cur. induction lines as [|line rest IH]; intros cur; cbn [pack_from].
  - cbn. by rewrite app_nil_r.
  - destruct (1000 <? len (concat cur ++ line)).
    + cbn [concat]. by rewrite IH.
    + by rewrite IH, <- app_assoc.
Qed.

Lemma pack_from_head cur lines :
  exists g rest, pack_from cur lines = (cur ++ g) :: rest.
Proof.
  revert cur. induction lines as [|line rest IH]; intros cur; cbn [pack_from].
  - exists [], []. by rewrite app_nil_r.
  - destruct (1000 <? len (concat cur ++ line)).
    + exists [], (pack_from [line] rest). by rewrite app_nil_r.
    + destruct (IH (cur ++ [line])) as (g & rest' & ->).
      exists (line :: g), rest'. by rewrite <- app_assoc.
Qed.




Lemma block_values_snoc es color count text :
  block_values (es ++ [todo_embed color count text]) = block_values es ++ [text].
Proof. unfold block_values. by rewrite flat_map_app. Qed.

(** The loop of the composer packs as [pack_from] does. *)
Lemma todo_fold_pack color iqs st cur :
  todo_text st = concat cur ->
  let st' := fold_left (todo_step color) iqs st in
  block_values (closed_embeds st') ++ [todo_text st']
  = block_values (closed_embeds st) ++ map join_lines (pack_from cur (map question_line iqs)).
Proof.
  revert st cur. induction iqs as [|iq iqs IH]; intros st cur Hcur; cbn [fold_left map pack_from].
  - cbn. by rewrite Hcur.
  - cbv zeta in IH |- *. unfold todo_step at 2 4. rewrite <- Hcur.
    destruct (1000 <? len (todo_text st ++ question_line iq)).
    + rewrite (IH _ [question_line iq]) by (cbn; by rewrite app_nil_r).
      cbn [closed_embeds map]. by rewrite block_values_snoc, Hcur, <- app_assoc.
    + rewrite (IH _ (cur ++ [question_line iq])); [done|].
      cbn [todo_text]. rewrite concat_app, Hcur. cbn. by rewrite app_nil_r.
Qed.

Lemma question_line_nonempty iq : question_line iq <> [].
Proof.
  unfold question_line. intros E. apply (f_equal length) in E.
  rewrite !length_app in E. simpl in E. lia.
Qed.

Lemma todo_fold_text color iqs st :
  iqs <> [] \/ todo_text st <> [] ->
  todo_text (fold_left (todo_step color) iqs st) <> [].
Proof.
  revert st. induction iqs as [|iq iqs IH]; intros st Hst; cbn [fold_left].
  - by destruct Hst.
  - apply IH. right. unfold todo_step.
    destruct (1000 <? len (todo_text st ++ question_line iq)); cbn [todo_text].
    + apply question_line_nonempty.
    + intros [_ E]%app_eq_nil. by apply question_line_nonempty in E.
Qed.

(** The todo blocks are the closed blocks of the loop and the last one. *)
Lemma todo_blocks_success result :
  status result = success ->
  is_Some (done_count result) -> is_Some (todo_count result) ->
  todo_questions result <> [] ->
  exists p,
    build_payload result = Ok p
    /\ todo_blocks result
       = map join_lines (pack_from [] (map question_line (enumerate 1 (todo_questions result)))).
Proof.
  intros Hstatus [d Hd] [t Ht] Htodo. unfold todo_blocks, build_payload.
  assert (exists color, select_color result = Ok color) as [color Hcolor].
  { unfold select_color. rewrite Hstatus, Ht. cbn.
    destruct (has_new_questions result); [eauto|]. destruct (t =? 0); eauto. }
  assert (exists main, main_embed color result = Ok main) as [main Hmain].
  { unfold main_embed. rewrite Hstatus, Hd, Ht. cbn [key mbind res_bind].
    destruct (has_new_questions result); cbn [mbind res_bind]; eauto. }
  rewrite Hcolor. cbn [mbind res_bind]. rewrite Hmain. cbn [mbind res_bind].
  unfold todo_embeds. rewrite Hstatus.
  assert (Htruthy : list_truthy (todo_questions result) = true).
  { unfold list_truthy. by destruct (todo_questions result). }
  rewrite Htruthy.
  set (st0 := {| closed_embeds := []; todo_text := [];
                 questions_in_current_embed := 0; embed_count := 1 |}).
  set (iqs := enumerate 1 (todo_questions result)).
  assert (Hiqs : iqs <> []) by (subst iqs; by destruct (todo_questions result)).
  pose proof (todo_fold_text color iqs st0 (or_introl Hiqs)) as Htext.
  pose proof (todo_fold_pack color iqs st0 [] eq_refl) as Hpack. cbv zeta in Hpack.
  set (st' := fold_left (todo_step color) iqs st0) in *.
  assert (Hlast : py_truthy (PStr (todo_text st')) = true).
  { simpl. by destruct (todo_text st'). }
  rewrite Hlast, Ht.
  assert (exists count,
    (if 1 <? embed_count st' then Ok (embed_count st') else key "todo_count" (Some t))
    = Ok count) as [count ->].
  { destruct (1 <? embed_count st'); cbn; eauto. }
  cbn [mbind res_bind]. eexists. split; [reflexivity|].
  cbn [embeds tail]. by rewrite block_values_snoc, Hpack.
Qed.



(** A block beyond the ceiling holds a single entry. *)
Lemma pack_from_ceiling cur lines :
  len (concat cur) <= 1000 \/ (exists line, cur = [line]) ->
  Forall (fun g => len (concat g) <= 1000 \/ exists line, g = [line])
    (pack_from cur lines).
Proof.
  revert cur. induction lines as [|line rest IH]; intros cur Hcur; cbn [pack_from].
  - by constructor.
  - destruct (1000 <? len (concat cur ++ line)) eqn:E.
    + constructor; [done|]. apply IH. eauto.
    + apply IH. left. apply Z.ltb_ge in E. rewrite concat_app. cbn.
      by rewrite app_nil_r.
Qed.





(** Fifty entries of 40 characters go to three blocks: entries 1 to 22,
    23 to 44 and 45 to 50. *)
Example fifty_entries_three_blocks :
  map len (todo_blocks (sample_run fifty_grid)) = [981; 990; 270].
Proof. vm_compute. reflexivity. Qed.

Lemma recently_completed_field_witness :
  (exists e fs,
     main_embed orange (sample_run completed_grid) = Ok e
     /\ embed_fields e
        = fs ++ [{| name := recently_completed_name;
                    value :=
                      lit "~~" ++ lit "[DONE] " ++ repeat 120%N 53 ++ lit "..." ++ lit "~~"
                      ++ [10%N]
                      ++ lit "~~" ++ lit "[DONE] " ++ repeat 121%N 33 ++ lit "~~" ++ [10%N]
                      ++ lit "~~" ++ lit "[DONE] four" ++ lit "~~" ++ [10%N];
                    inline := false |}])
  /\ exists e,
       main_embed orange (sample_run todo_only_grid) = Ok e
       /\ Forall (fun f => name f <> recently_completed_name /\ value f <> lit "None")
            (embed_fields e).
Proof.
  split.
  - destruct (recently_completed_field orange (sample_run completed_grid))
      as (e & He & Hdone & _).
    { vm_compute. reflexivity. }
    { vm_compute. eexists. reflexivity. }
    { vm_compute. eexists. reflexivity. }
    destruct Hdone as (fs & earlier & shown & Hfields & _ & Hsplit & Hlen).
    { vm_compute. discriminate. }
    apply last_three_unique in Hsplit; [|exact Hlen]. subst shown.
    exists e, fs. split; [exact He|]. rewrite Hfields.
    apply (f_equal (fun v => fs ++ [{| name := recently_completed_name;
                                        value := v; inline := false |}])).
    vm_compute. reflexivity.
  - destruct (recently_completed_field orange (sample_run todo_only_grid))
      as (e & He & _ & Hnone).
    { vm_compute. reflexivity. }
    { vm_compute. eexists. reflexivity. }
    { vm_compute. eexists. reflexivity. }
    exists e. split; [exact He|]. apply Hnone. vm_compute. reflexivity.
Defined.

End Composer.

(** ** Further properties of the strings *)

Section Strings.

Lemma is_prefix_spec p s :
  is_prefix p s = true <-> exists rest, s = p ++ rest.
Proof.
  revert s. induction p as [|a p IH]; intros s.
  - split; [by exists s|done].
  - destruct s as [|b s]; cbn [is_prefix].
    + split; [done|]. by intros [rest [=]].
    + rewrite andb_true_iff, N.eqb_eq, IH. split.
      * intros [-> [rest ->]]. by exists rest.
      * intros [rest [= -> ->]]. eauto.
Qed.

(** [sub in s] holds exactly when [s] holds [sub] somewhere. *)
Lemma str_in_spec sub s :
  str_in sub s = true <-> exists before after, s = before ++ sub ++ after.
Proof.
  induction s as [|c s IH]; cbn [str_in]; rewrite orb_true_iff, is_prefix_spec.
  - split.
    + intros [[rest Hrest]|[=]]. by exists [], rest.
    + intros ([|? before] & after & Hs); [left; by exists after|done].
  - rewrite IH. split.
    + intros [[rest Hrest]|(before & after & ->)]; [by exists [], rest|].
      by exists (c :: before), after.
    + intros ([|c' before] & after & Hs); [left; by exists after|].
      injection Hs as <- ->. right. by exists before, after.
Qed.

Lemma lstrip_spec s :
  exists spaces,
    s = spaces ++ lstrip s /\ forallb py_isspace spaces = true
    /\ (forall c, head (lstrip s) = Some c -> py_isspace c = false).
Proof.
  induction s as [|c s (spaces & Hs & Hspaces & Hhead)]; cbn [lstrip].
  - by exists [].
  - destruct (py_isspace c) eqn:Hc.
    + exists (c :: spaces). cbn [forallb app]. rewrite Hc, Hspaces, <- Hs. done.
    + exists []. split; [done|]. split; [done|]. by intros ? [= <-].
Qed.

(** [strip] leaves a text that neither starts nor ends with white space,
    and that stripping again does not change. *)
Lemma strip_trimmed s :
  (forall c, head (strip s) = Some c -> py_isspace c = false)
  /\ (forall c, last (strip s) = Some c -> py_isspace c = false)
  /\ strip (strip s) = strip s.
Proof.
  unfold strip.
  destruct (lstrip_spec s) as (sp1 & _ & _ & Hhead1).
  destruct (lstrip_spec (reverse (lstrip s))) as (sp2 & Hrev & _ & Hhead2).
  set (u := lstrip s) in *. set (v := lstrip (reverse u)) in *.
  assert (Hfirst : forall c, head (reverse v) = Some c -> py_isspace c = false).
  { intros c Hc. rewrite head_reverse in Hc. apply Hhead1.
    by rewrite <- last_reverse, Hrev, last_app, Hc. }
  assert (Hlast : forall c, last (reverse v) = Some c -> py_isspace c = false).
  { intros c Hc. rewrite last_reverse in Hc. by apply Hhead2. }
  split; [done|]. split; [done|].
  assert (Hl : lstrip (reverse v) = reverse v).
  { destruct (reverse v) as [|c w] eqn:E; [done|]. cbn [lstrip].
    by rewrite (Hfirst c eq_refl). }
  rewrite Hl, reverse_involutive. fold v.
  assert (Hv : lstrip v = v).
  { destruct v as [|c w] eqn:E; [done|]. cbn [lstrip]. by rewrite (Hhead2 c eq_refl). }
  by rewrite Hv.
Qed.

End Strings.

(** ** Further properties of the extractor *)

Section ExtractorOrder.

Context `{StrUpper}.

Lemma record_row_number doc values col i q :
  record_at doc values col i = Some q -> row_number q = Z.of_nat i + 1.
Proof. by intros (row & cell & _ & _ & _ & ->)%record_at_Some. Qed.

Lemma rows_sorted doc values col start n :
  StronglySorted Z.lt (row_number <$> omap (record_at doc values col) (seq start n))
  /\ Forall (fun z => Z.of_nat start + 1 <= z)
       (row_number <$> omap (record_at doc values col) (seq start n)).
Proof.
  revert start. induction n as [|n IH]; intros start; cbn [seq omap list_omap].
  { split; constructor. }
  destruct (IH (S start)) as [Hsorted Hlow].
  destruct (record_at doc values col start) as [q|] eqn:Hq.
  - apply record_row_number in Hq. cbn [fmap list_fmap]. rewrite Hq. split.
    + constructor; [done|]. eapply Forall_impl; [exact Hlow|]. intros; cbn in *; lia.
    + constructor; [lia|]. eapply Forall_impl; [exact Hlow|]. intros; cbn in *; lia.
  - split; [done|]. eapply Forall_impl; [exact Hlow|]. intros; cbn in *; lia.
Qed.

Lemma Forall_list_filter {A} (P : A -> Prop) (f : A -> bool) l :
  (forall x, x ∈ l -> f x = true -> P x) -> Forall P (List.filter f l).
Proof.
  intros HP. apply Forall_forall. intros x Hx%list_elem_of_In.
  apply filter_In in Hx as [Hx Hf]. apply HP; [by apply list_elem_of_In|done].
Qed.

(** X1: the done and todo lists split the list of all records, each keeping the
    grid order, and the three counts are the lengths of the lists. *)
Theorem done_todo_partition now url creds source :
  let result := parse_group4_questions now url creds source in
  status result = success ->
  exists qs,
    all_questions result = Some qs
    /\ done_questions result = List.filter is_crossed_out qs
    /\ todo_questions result = List.filter (fun q => negb (is_crossed_out q)) qs
    /\ total_questions result = len qs
    /\ done_count result = Some (len (done_questions result))
    /\ todo_count result = Some (len (todo_questions result))
    /\ len qs = len (done_questions result) + len (todo_questions result).
Proof.
  intros result Hstatus.
  destruct (parse_success_counts now url creds source Hstatus) as (Hd & Ht & Htotal).
  apply parse_success_inv in Hstatus as (header & rows & doc & col & _ & _ & Hr).
  fold result in Hd, Ht, Htotal, Hr. clearbody result. subst result.
  cbn [all_questions done_questions todo_questions total_questions done_count todo_count]
    in *.
  destruct (rows_loop_spec doc (header :: rows) col) as (Hg & Hdone & Htodo & _).
  exists (group4_data (rows_loop doc (header :: rows) col)).
  rewrite <- Hg in Hdone, Htodo. by repeat split.
Qed.

(** X2: the records are in grid order: their row numbers increase strictly, and
    the first data row has number 2. *)
Theorem records_in_row_order now url creds source :
  let result := parse_group4_questions now url creds source in
  status result = success ->
  exists qs,
    all_questions result = Some qs
    /\ StronglySorted Z.lt (row_number <$> qs)
    /\ Forall (fun q => 2 <= row_number q) qs.
Proof.
  intros result (header & rows & doc & col & _ & _ & Hr)%parse_success_inv.
  subst result. rewrite Hr. cbn [all_questions].
  destruct (rows_loop_spec doc (header :: rows) col) as (Hg & _).
  eexists. split; [done|]. rewrite Hg.
  destruct (rows_sorted doc (header :: rows) col 1 (length (header :: rows) - 1))
    as [Hsorted Hlow].
  split; [done|]. apply Forall_forall. intros q Hq.
  rewrite Forall_forall in Hlow. specialize (Hlow (row_number q)).
  cbn beta in Hlow. rewrite list_elem_of_fmap in Hlow.
  assert (Z.of_nat 1 + 1 <= row_number q) by eauto. lia.
Qed.

(** X3: a record of the todo list is not crossed out and is tagged
    [manual_indicators], although no marker was found in it; a record of the
    done list is crossed out; a record tagged [api_formatting] is crossed
    out. *)
Theorem provenance_of_done_and_todo now url creds source :
  let result := parse_group4_questions now url creds source in
  status result = success ->
  Forall (fun q => is_crossed_out q = false /\ formatting_source q = manual_indicators)
    (todo_questions result)
  /\ Forall (fun q => is_crossed_out q = true) (done_questions result)
  /\ (forall qs q, all_questions result = Some qs -> q ∈ qs ->
        formatting_source q = api_formatting -> is_crossed_out q = true).
Proof.
  intros result (header & rows & doc & col & _ & _ & Hr)%parse_success_inv.
  subst result. rewrite Hr. cbn [all_questions done_questions todo_questions].
  destruct (rows_loop_spec doc (header :: rows) col) as (Hg & -> & -> & _).
  assert (Htag : forall q,
    q ∈ omap (record_at doc (header :: rows) col) (seq 1 (length (header :: rows) - 1)) ->
    is_crossed_out q = false -> formatting_source q = manual_indicators).
  { intros q (i & _ & Hq)%list_elem_of_omap.
    apply record_at_Some in Hq as (row & cell & _ & _ & _ & ->).
    unfold detected_record. cbn [is_crossed_out formatting_source].
    by destruct (check_cell_strikethrough _ _ _ _). }
  split; [|split].
  - apply Forall_list_filter. intros q Hq Hc%negb_true_iff. split; [done|by apply Htag].
  - by apply Forall_list_filter.
  - intros qs q [= <-] Hq Hapi. rewrite Hg in Hq.
    destruct (is_crossed_out q) eqn:Hc; [done|]. by rewrite (Htag q Hq Hc) in Hapi.
Qed.

(** X4: the text of a record is not empty and carries no white space at either
    end. *)
Theorem record_text_trimmed now url creds source :
  let result := parse_group4_questions now url creds source in
  status result = success ->
  exists qs,
    all_questions result = Some qs
    /\ Forall (fun q =>
         text q <> []
         /\ (forall c, head (text q) = Some c -> py_isspace c = false)
         /\ (forall c, last (text q) = Some c -> py_isspace c = false)) qs.
Proof.
  intros result (header & rows & doc & col & _ & _ & Hr)%parse_success_inv.
  subst result. rewrite Hr. cbn [all_questions].
  destruct (rows_loop_spec doc (header :: rows) col) as (Hg & _).
  eexists. split; [done|]. rewrite Hg. apply Forall_forall.
  intros q (i & _ & Hq)%list_elem_of_omap.
  apply record_at_Some in Hq as (row & cell & _ & _ & Hne & ->).
  cbn [detected_record text]. split; [done|].
  destruct (strip_trimmed cell) as (Hhead & Hlast & _). by split.
Qed.

End ExtractorOrder.

Lemma done_todo_partition_witness :
  exists qs,
    all_questions (sample_run sample_grid) = Some qs
    /\ done_questions (sample_run sample_grid) = List.filter is_crossed_out qs
    /\ todo_questions (sample_run sample_grid)
       = List.filter (fun q => negb (is_crossed_out q)) qs
    /\ total_questions (sample_run sample_grid) = len qs
    /\ done_count (sample_run sample_grid)
       = Some (len (done_questions (sample_run sample_grid)))
    /\ todo_count (sample_run sample_grid)
       = Some (len (todo_questions (sample_run sample_grid)))
    /\ len qs = len (done_questions (sample_run sample_grid))
                + len (todo_questions (sample_run sample_grid)).
Proof. apply (@done_todo_partition ascii_upper). vm_compute. reflexivity. Defined.

Lemma records_in_row_order_witness :
  exists qs,
    all_questions (sample_run sample_grid) = Some qs
    /\ StronglySorted Z.lt (row_number <$> qs)
    /\ Forall (fun q => 2 <= row_number q) qs.
Proof. apply (@records_in_row_order ascii_upper). vm_compute. reflexivity. Defined.

Lemma provenance_of_done_and_todo_witness :
  Forall (fun q => is_crossed_out q = false /\ formatting_source q = manual_indicators)
    (todo_questions (sample_run sample_grid))
  /\ Forall (fun q => is_crossed_out q = true) (done_questions (sample_run sample_grid))
  /\ (forall qs q, all_questions (sample_run sample_grid) = Some qs -> q ∈ qs ->
        formatting_source q = api_formatting -> is_crossed_out q = true).
Proof. apply (@provenance_of_done_and_todo ascii_upper). vm_compute. reflexivity. Defined.

Lemma record_text_trimmed_witness :
  exists qs,
    all_questions (sample_run sample_grid) = Some qs
    /\ Forall (fun q =>
         text q <> []
         /\ (forall c, head (text q) = Some c -> py_isspace c = false)
         /\ (forall c, last (text q) = Some c -> py_isspace c = false)) qs.
Proof. apply (@record_text_trimmed ascii_upper). vm_compute. reflexivity. Defined.

Section ColumnResolution.

Context `{StrUpper}.

Lemma header_test h :
  py_truthy (PStr h) && str_in (lit "Group4") h = str_in (lit "Group4") h.
Proof. by destruct h. Qed.

Lemma find_group4_column_spec k header i :
  find_group4_column k header = Some i <->
  exists j h,
    i = (k + j)%nat /\ header !! j = Some h /\ str_in (lit "Group4") h = true
    /\ forall j' h', (j' < j)%nat -> header !! j' = Some h' ->
                     str_in (lit "Group4") h' = false.
Proof.
  revert k. induction header as [|h0 header IH]; intros k; cbn [find_group4_column].
  { split; [done|]. intros (j & h & _ & Hj & _). by rewrite lookup_nil in Hj. }
  rewrite header_test. destruct (str_in (lit "Group4") h0) eqn:Hh0.
  - split.
    + intros [= <-]. exists 0%nat, h0. repeat split; [lia|done|]. intros; lia.
    + intros (j & h & -> & Hj & Hh & Hfirst). destruct j as [|j]; [f_equal; lia|].
      by rewrite (Hfirst 0%nat h0) in Hh0 by (done || lia).
  - rewrite IH. split.
    + intros (j & h & -> & Hj & Hh & Hfirst). exists (S j), h.
      repeat split; [lia|done|done|]. intros [|j'] h' Hlt Hj'.
      * by injection Hj' as <-.
      * apply (Hfirst j'); [lia|done].
    + intros (j & h & -> & Hj & Hh & Hfirst). destruct j as [|j].
      { injection Hj as ->. congruence. }
      exists j, h. repeat split; [lia|done|done|]. intros j' h' Hlt Hj'.
      apply (Hfirst (S j')); [lia|done].
Qed.

Lemma find_group4_column_None k header :
  find_group4_column k header = None ->
  forall h, h ∈ header -> str_in (lit "Group4") h = false.
Proof.
  revert k. induction header as [|h0 header IH]; intros k; cbn [find_group4_column].
  { intros _ h Hh. by apply not_elem_of_nil in Hh. }
  rewrite header_test. destruct (str_in (lit "Group4") h0) eqn:Hh0; [done|].
  intros Hrest h [->|Hh]%elem_of_cons; [done|]. by eapply IH.
Qed.

(** X5: the column is the first header that holds the text ["Group4"], with
    this very case; the result names it by its 1-indexed position, and the run
    succeeds exactly when such a header exists. *)
Theorem column_is_first_matching_header now url creds header rows doc :
  let result :=
    parse_group4_questions now url creds (SourceData (Some (header :: rows)) doc) in
  py_truthy (from_option PStr PNone creds) = true ->
  (status result = success <->
   exists h before after, h ∈ header /\ h = before ++ lit "Group4" ++ after)
  /\ (forall n, group4_column_index result = Some n ->
      exists i h before after,
        n = Z.of_nat i + 1 /\ header !! i = Some h
        /\ h = before ++ lit "Group4" ++ after
        /\ forall j h', (j < i)%nat -> header !! j = Some h' ->
             ~ exists before' after', h' = before' ++ lit "Group4" ++ after').
Proof.
  intros result Hcreds. subst result. unfold parse_group4_questions.
  rewrite Hcreds. cbn [negb].
  destruct (find_group4_column 0 header) as [col|] eqn:Hcol.
  - apply find_group4_column_spec in Hcol as (j & h & -> & Hj & Hh & Hfirst).
    cbn [status group4_column_index]. split.
    + split; [|done]. intros _. apply str_in_spec in Hh as (before & after & ->).
      eexists _, before, after. split; [|done]. by eapply list_elem_of_lookup_2.
    + intros n [= <-]. apply str_in_spec in Hh as (before & after & ->).
      eexists j, _, before, after. repeat split; [done|].
      intros j' h' Hlt Hj' Hcontains%str_in_spec. by rewrite (Hfirst j' h') in Hcontains.
  - cbn [status group4_column_index error_result]. split; [|done]. split; [done|].
    intros (h & before & after & Hin & Hh).
    assert (Hstr : str_in (lit "Group4") h = true) by (apply str_in_spec; eauto).
    by rewrite (find_group4_column_None _ _ Hcol h Hin) in Hstr.
Qed.

End ColumnResolution.

Lemma column_is_first_matching_header_witness :
  status (sample_run sample_grid) = success
  /\ exists i h before after,
       2 = Z.of_nat i + 1 /\ [lit "Name"; lit "Group4 (final)"] !! i = Some h
       /\ h = before ++ lit "Group4" ++ after.
Proof.
  destruct (@column_is_first_matching_header ascii_upper (lit "2024-01-01T00:00:00")
    (lit "sheet") (Some (lit "{}")) [lit "Name"; lit "Group4 (final)"]
    (tail sample_grid) (one_cell_document user_struck_cell)) as [Hstatus Hcol].
  - vm_compute. reflexivity.
  - split.
    + apply Hstatus. exists (lit "Group4 (final)"), [], (lit " (final)").
      split; [|reflexivity]. apply list_elem_of_In. right. left. reflexivity.
    + destruct (Hcol 2) as (i & h & before & after & Hn & Hi & Hh & _).
      * vm_compute. reflexivity.
      * by exists i, h, before, after.
Defined.

(** ** Further properties of the composer *)

Section ComposerBlocks.

Lemma numbered_embeds_snoc color k blocks block :
  numbered_embeds color k (blocks ++ [block])
  = numbered_embeds color k blocks ++ [todo_embed color (k + len blocks) block].
Proof.
  revert k. induction blocks as [|b blocks IH]; intros k; cbn [numbered_embeds app].
  - unfold len. cbn. by rewrite Z.add_0_r.
  - rewrite IH.
    replace (k + 1 + len blocks) with (k + len (b :: blocks))
      by (unfold len; rewrite length_cons; lia).
    done.
Qed.

Lemma numbered_embeds_values color k blocks :
  block_values (numbered_embeds color k blocks) = blocks.
Proof.
  revert k. induction blocks as [|b blocks IH]; intros k; [done|].
  cbn [numbered_embeds]. unfold block_values in *. cbn [flat_map]. by rewrite IH.
Qed.

Lemma length_numbered_embeds color k blocks :
  length (numbered_embeds color k blocks) = length blocks.
Proof.
  revert k. induction blocks as [|b blocks IH]; intros k; [done|].
  cbn [numbered_embeds length]. by rewrite IH.
Qed.

Lemma numbered_embeds_color color k blocks :
  Forall (fun e => embed_color e = color) (numbered_embeds color k blocks).
Proof.
  revert k. induction blocks as [|b blocks IH]; intros k; cbn [numbered_embeds];
    by constructor.
Qed.

(** The loop numbers the blocks it closes from the block counter on. *)
Lemma todo_fold_numbered color iqs st cur :
  todo_text st = concat cur ->
  let st' := fold_left (todo_step color) iqs st in
  exists closed,
    closed_embeds st' = closed_embeds st ++ numbered_embeds color (embed_count st) closed
    /\ embed_count st' = embed_count st + len closed
    /\ closed ++ [todo_text st'] = map join_lines (pack_from cur (map question_line iqs)).
Proof.
  revert st cur. induction iqs as [|iq iqs IH]; intros st cur Hcur;
    cbn [fold_left map pack_from].
  - exists []. cbn. rewrite app_nil_r, Hcur. unfold len. cbn. by rewrite Z.add_0_r.
  - cbv zeta in IH |- *. unfold todo_step at 2 4 6. rewrite <- Hcur.
    destruct (1000 <? len (todo_text st ++ question_line iq)).
    + destruct (IH {| closed_embeds :=
                        closed_embeds st
                        ++ [todo_embed color (embed_count st) (todo_text st)];
                      todo_text := question_line iq;
                      questions_in_current_embed := questions_in_current_embed st + 1;
                      embed_count := embed_count st + 1 |} [question_line iq])
        as (closed & Hclosed & Hcount & Hvals).
      { cbn. by rewrite app_nil_r. }
      cbn [closed_embeds embed_count todo_text] in Hclosed, Hcount.
      exists (todo_text st :: closed). cbn [numbered_embeds map].
      rewrite Hclosed, Hcount, <- app_assoc. split; [done|]. split.
      * unfold len. rewrite length_cons. lia.
      * cbn [app]. by rewrite Hvals, Hcur.
    + destruct (IH {| closed_embeds := closed_embeds st;
                      todo_text := todo_text st ++ question_line iq;
                      questions_in_current_embed := questions_in_current_embed st + 1;
                      embed_count := embed_count st |} (cur ++ [question_line iq]))
        as (closed & Hclosed & Hcount & Hvals).
      { cbn [todo_text]. rewrite concat_app, Hcur. cbn. by rewrite app_nil_r. }
      by exists closed.
Qed.

(** The payload of a success result that carries its counts. *)
Lemma build_payload_success result d t :
  status result = success -> done_count result = Some d -> todo_count result = Some t ->
  exists color main,
    select_color result = Ok color
    /\ main_embed color result = Ok main
    /\ embed_color main = color
    /\ build_payload result
       = Ok {| embeds :=
                 main ::
                 (if list_truthy (todo_questions result)
                  then
                    let st :=
                      fold_left (todo_step color) (enumerate 1 (todo_questions result))
                        {| closed_embeds := []; todo_text := [];
                           questions_in_current_embed := 0; embed_count := 1 |} in
                    closed_embeds st
                    ++ [todo_embed color
                          (if 1 <? embed_count st then embed_count st else t)
                          (todo_text st)]
                  else []);
               content :=
                 if has_new_questions result && (3 <? t)
                 then Some (lit "@here Multiple questions need attention!")
                 else None |}.
Proof.
  intros Hstatus Hd Ht. unfold build_payload.
  assert (exists color, select_color result = Ok color) as [color Hcolor].
  { unfold select_color. rewrite Hstatus, Ht. cbn.
    destruct (has_new_questions result); [eauto|]. destruct (t =? 0); eauto. }
  assert (exists main, main_embed color result = Ok main /\ embed_color main = color)
    as (main & Hmain & Hmaincolor).
  { unfold main_embed. rewrite Hstatus, Hd, Ht. cbn [key mbind res_bind].
    destruct (has_new_questions result); cbn [mbind res_bind]; eauto. }
  exists color, main. split; [done|]. split; [done|]. split; [done|].
  rewrite Hcolor. cbn [mbind res_bind]. rewrite Hmain. cbn [mbind res_bind].
  unfold todo_embeds. rewrite Hstatus, Ht. cbn [default from_option id].
  destruct (list_truthy (todo_questions result)) eqn:Htruthy; [|done].
  set (st := fold_left _ _ _).
  assert (Htext : py_truthy (PStr (todo_text st)) = true).
  { assert (todo_text st <> []) as Hne.
    { apply todo_fold_text. left. unfold list_truthy in Htruthy.
      by destruct (todo_questions result). }
    simpl. by destruct (todo_text st). }
  rewrite Htext. by destruct (1 <? embed_count st).
Qed.

(** X10: the todo blocks are titled by a block counter that starts at 1, or, when
    there is one block only, by the todo count; every block has the selected
    color and one field. *)
Theorem todo_embeds_numbered result :
  status result = success ->
  is_Some (done_count result) -> is_Some (todo_count result) ->
  todo_questions result <> [] ->
  exists p color t,
    build_payload result = Ok p
    /\ select_color result = Ok color /\ todo_count result = Some t
    /\ tail (embeds p)
       = match todo_blocks result with
         | [block] => [todo_embed color t block]
         | blocks => numbered_embeds color 1 blocks
         end.
Proof.
  intros Hstatus [d Hd] [t Ht] Htodo.
  destruct (build_payload_success result d t Hstatus Hd Ht)
    as (color & main & Hcolor & _ & _ & Hp).
  assert (Htruthy : list_truthy (todo_questions result) = true).
  { unfold list_truthy. by destruct (todo_questions result). }
  rewrite Htruthy in Hp. cbv zeta in Hp.
  destruct (todo_fold_numbered color (enumerate 1 (todo_questions result))
              {| closed_embeds := []; todo_text := [];
                 questions_in_current_embed := 0; embed_count := 1 |} [] eq_refl)
    as (closed & Hclosed & Hcount & _).
  cbv zeta in Hclosed, Hcount. cbn [closed_embeds embed_count app] in Hclosed, Hcount.
  set (st := fold_left _ _ _) in *.
  eexists _, color, t. split; [exact Hp|]. split; [done|]. split; [done|].
  unfold todo_blocks. rewrite Hp. cbn [embeds tail].
  rewrite Hclosed, Hcount, block_values_snoc, numbered_embeds_values.
  destruct closed as [|b closed].
  - cbn [app numbered_embeds]. unfold len. cbn. done.
  - replace (1 <? 1 + len (b :: closed)) with true
      by (symmetry; apply Z.ltb_lt; unfold len; rewrite length_cons; lia).
    rewrite <- numbered_embeds_snoc. by destruct closed.
Qed.

(** X11: a todo block that exceeds 1000 characters holds exactly one entry. *)
Theorem block_beyond_ceiling_is_one_entry result :
  status result = success ->
  is_Some (done_count result) -> is_Some (todo_count result) ->
  todo_questions result <> [] ->
  Forall (fun block =>
            len block <= 1000
            \/ exists iq, iq ∈ enumerate 1 (todo_questions result)
                          /\ block = question_line iq)
    (todo_blocks result).
Proof.
  intros Hstatus Hd Ht Htodo.
  destruct (todo_blocks_success result Hstatus Hd Ht Htodo) as (p & _ & ->).
  set (lines := map question_line (enumerate 1 (todo_questions result))).
  assert (Hceil : Forall (fun g => len (concat g) <= 1000 \/ exists line, g = [line])
                    (pack_from [] lines)).
  { apply pack_from_ceiling. left. by cbn. }
  pose proof (pack_from_concat [] lines) as Hconcat. cbn [app] in Hconcat.
  apply Forall_map. rewrite Forall_forall in Hceil |- *. intros g Hg.
  destruct (Hceil g Hg) as [Hle|[line ->]]; [by left|]. right.
  assert (Hline : line ∈ lines).
  { rewrite <- Hconcat. apply list_elem_of_In, in_concat. exists [line].
    split; [by apply list_elem_of_In|by left]. }
  apply list_elem_of_In, in_map_iff in Hline as (iq & <- & Hiq).
  exists iq. split; [by apply list_elem_of_In|]. cbn. by rewrite app_nil_r.
Qed.

(** X12: an over-long first entry closes the still empty first block: the first
    todo block then has an empty value. *)
Theorem long_first_entry_empty_block result q rest :
  status result = success ->
  is_Some (done_count result) -> is_Some (todo_count result) ->
  todo_questions result = q :: rest ->
  1000 < len (question_line (1, q)) ->
  exists first blocks,
    todo_blocks result = [] :: first :: blocks
    /\ is_prefix (question_line (1, q)) first = true.
Proof.
  intros Hstatus Hd Ht Htodo Hlong.
  destruct (todo_blocks_success result Hstatus Hd Ht) as (p & _ & ->);
    [by rewrite Htodo|].
  rewrite Htodo. cbn [enumerate map pack_from concat app].
  rewrite (proj2 (Z.ltb_lt _ _) Hlong). cbn [map concat].
  destruct (pack_from_head [question_line (1, q)]
              (map question_line (enumerate (1 + 1) rest))) as (g & groups & ->).
  eexists _, (map join_lines groups). split; [done|].
  apply is_prefix_spec. exists (concat g). reflexivity.
Qed.

End ComposerBlocks.

Section ComposerOnResults.

Context `{StrUpper}.

Lemma main_embed_fields color result d t :
  status result = success -> done_count result = Some d -> todo_count result = Some t ->
  exists main summary recent,
    main_embed color result = Ok main
    /\ name summary = chart_glyph ++ lit " Summary"
    /\ Forall (fun f => name f = recently_completed_name) recent
    /\ embed_fields main
       = (if has_new_questions result
          then [{| name := alert_name;
                   value := lit "**" ++ str_of_Z t ++ lit " question(s) need attention!**";
                   inline := false |}]
          else [])
         ++ [summary] ++ recent.
Proof.
  intros Hstatus Hd Ht. unfold main_embed. rewrite Hstatus, Hd, Ht.
  cbn [key mbind res_bind].
  destruct (has_new_questions result); cbn [mbind res_bind];
    eexists _, _, _; (split; [reflexivity|]); cbn [embed_fields];
    (split; [|split; [|reflexivity]]); try reflexivity;
    destruct (list_truthy (done_questions result)); by repeat constructor.
Qed.

(** X6: the composer does not fail on a result of the extractor: it gives the
    primary block and one block per todo block, all of the selected color,
    and the primary block alone when there is no todo entry. *)
Theorem payload_of_every_result now url creds source :
  let result := parse_group4_questions now url creds source in
  exists p color,
    build_payload result = Ok p
    /\ select_color result = Ok color
    /\ Forall (fun e => embed_color e = color) (embeds p)
    /\ length (embeds p) = S (length (todo_blocks result))
    /\ (todo_questions result = [] -> length (embeds p) = 1%nat).
Proof.
  intros result. destruct (status result) eqn:Hstatus.
  - destruct (parse_success_counts now url creds source Hstatus) as (Hd & Ht & _).
    fold result in Hd, Ht. clearbody result.
    destruct (build_payload_success result _ _ Hstatus Hd Ht)
      as (color & main & Hcolor & _ & Hmain & Hp).
    eexists _, color. split; [exact Hp|]. split; [done|]. unfold todo_blocks. rewrite Hp. cbn [embeds tail].
    destruct (todo_questions result) as [|q todo] eqn:Htodo.
    { cbn. by repeat constructor. }
    cbn [list_truthy length Nat.eqb negb]. cbv zeta.
    destruct (todo_fold_numbered color (enumerate 1 (q :: todo))
                {| closed_embeds := []; todo_text := [];
                   questions_in_current_embed := 0; embed_count := 1 |} [] eq_refl)
      as (closed & Hclosed & _ & _).
    cbv zeta in Hclosed. cbn [closed_embeds embed_count app] in Hclosed.
    rewrite Hclosed, block_values_snoc, numbered_embeds_values.
    split; [|split; [|done]].
    + constructor; [done|]. apply Forall_app. split; [apply numbered_embeds_color|].
      by repeat constructor.
    + cbn [length]. by rewrite !length_app, length_numbered_embeds.
  - apply parse_error_inv in Hstatus as [msg Hr]. fold result in Hr. rewrite Hr.
    eexists _, red. by repeat split; try reflexivity; repeat constructor.
Qed.

(** X7: an error result gives one red block whose only field holds the message,
    and no urgent mention. *)
Theorem error_payload now url creds source :
  let result := parse_group4_questions now url creds source in
  status result = error ->
  exists msg,
    message result = Some msg
    /\ build_payload result = Ok {| embeds := [error_embed now msg]; content := None |}.
Proof.
  intros result [msg Hr]%parse_error_inv. fold result in Hr. rewrite Hr.
  by exists msg.
Qed.

(** X8: the urgent mention is attached exactly when more than 3 entries are
    unfinished. *)
Theorem urgent_mention_iff now url creds source :
  let result := parse_group4_questions now url creds source in
  exists p,
    build_payload result = Ok p
    /\ (3 < len (todo_questions result) -> content p = Some urgent_mention)
    /\ (len (todo_questions result) <= 3 -> content p = None).
Proof.
  intros result. destruct (status result) eqn:Hstatus.
  - destruct (parse_success_counts now url creds source Hstatus) as (Hd & Ht & _).
    pose proof Hstatus as (header & rows & doc & col & _ & _ & Hr)%parse_success_inv.
    assert (Hnew : has_new_questions result = (0 <? len (todo_questions result))).
    { subst result. by rewrite Hr. }
    fold result in Hd, Ht. clearbody result.
    destruct (build_payload_success result _ _ Hstatus Hd Ht)
      as (color & main & _ & _ & _ & Hp).
    eexists. split; [exact Hp|]. cbn [content]. rewrite Hnew. split; intros Hlen.
    + by rewrite (proj2 (Z.ltb_lt _ _) Hlen), (proj2 (Z.ltb_lt 0 _)) by lia.
    + rewrite (proj2 (Z.ltb_ge 3 _) Hlen). by rewrite andb_false_r.
  - apply parse_error_inv in Hstatus as [msg Hr]. fold result in Hr. rewrite Hr.
    exists {| embeds := [error_embed now msg]; content := None |}.
    split; [reflexivity|]. split; [|done].
    unfold len. cbn [todo_questions error_result length]. lia.
Qed.

(** X9: the primary block of a success result opens with an alert field that
    gives the number of unfinished entries exactly when there is one; with
    none, no field is an alert. *)
Theorem attention_alert now url creds source :
  let result := parse_group4_questions now url creds source in
  status result = success ->
  exists p main,
    build_payload result = Ok p /\ head (embeds p) = Some main
    /\ (todo_questions result <> [] ->
        head (embed_fields main)
        = Some {| name := alert_name;
                  value := lit "**" ++ str_of_Z (len (todo_questions result))
                           ++ lit " question(s) need attention!**";
                  inline := false |})
    /\ (todo_questions result = [] ->
        Forall (fun f => name f <> alert_name) (embed_fields main)).
Proof.
  intros result Hstatus.
  destruct (parse_success_counts now url creds source Hstatus) as (Hd & Ht & _).
  pose proof Hstatus as (header & rows & doc & col & _ & _ & Hr)%parse_success_inv.
  assert (Hnew : has_new_questions result = (0 <? len (todo_questions result))).
  { subst result. by rewrite Hr. }
  fold result in Hd, Ht. clearbody result.
  destruct (build_payload_success result _ _ Hstatus Hd Ht)
    as (color & main & _ & Hmain & _ & Hp).
  destruct (main_embed_fields color result _ _ Hstatus Hd Ht)
    as (main' & summary & recent & Hmain' & Hsummary & Hrecent & Hfields).
  assert (main' = main) as -> by congruence.
  eexists _, main. split; [exact Hp|]. split; [done|]. rewrite Hfields, Hnew.
  split; intros Htodo.
  - destruct (todo_questions result); [done|]. by cbn.
  - rewrite Htodo. cbn [len length Z.of_nat Z.ltb Z.compare app].
    constructor; [by rewrite Hsummary|].
    eapply Forall_impl; [exact Hrecent|]. by intros f ->.
Qed.

End ComposerOnResults.

(** ** Further properties of the inspector *)

Section InspectorScan.

(** The answer depends on the document through the located cell only. *)
Lemma check_by_cell doc name r c doc' name' r' c' :
  doc_cell doc name r c = doc_cell doc' name' r' c' ->
  check_cell_strikethrough doc name r c = check_cell_strikethrough doc' name' r' c'.
Proof.
  intros Hcell. destruct (doc_cell doc name r c) as [cell|] eqn:Hdoc.
  - by rewrite (check_located _ _ _ _ _ Hdoc), (check_located _ _ _ _ cell (eq_sym Hcell)).
  - transitivity false.
    + destruct (check_cell_strikethrough doc name r c) eqn:E; [|done].
      apply check_true_located in E as (cell & Hsome & _). congruence.
    + destruct (check_cell_strikethrough doc' name' r' c') eqn:E; [|done].
      apply check_true_located in E as (cell & Hsome & _). congruence.
Qed.

Lemma find_sheet_first name before sheet after :
  (exists title, sheet_title sheet = Some title /\ py_eq_str title name = true) ->
  find_sheet name (before ++ sheet :: after) = find_sheet name (before ++ [sheet]).
Proof.
  intros (title & Htitle & Heq).
  induction before as [|s before IH]; cbn [app find_sheet].
  - by rewrite Htitle; cbn; rewrite Heq.
  - destruct (sheet_title s) as [t|]; [|done]. cbn. by destruct (py_eq_str t name).
Qed.

Lemma doc_sheet_lookup d name entries :
  d !! lit "sheets" = Some (PList entries) ->
  doc_sheet (PDict d) name = find_sheet name entries.
Proof. unfold doc_sheet. cbn. by intros ->. Qed.

(** X13: the scan stops at the first sheet entry that has the title: the entries
    after it do not matter. *)
Theorem first_titled_sheet_decides d d' name before sheet after after' r c :
  d !! lit "sheets" = Some (PList (before ++ sheet :: after)) ->
  d' !! lit "sheets" = Some (PList (before ++ sheet :: after')) ->
  (exists title, sheet_title sheet = Some title /\ py_eq_str title name = true) ->
  check_cell_strikethrough (PDict d) name r c
  = check_cell_strikethrough (PDict d') name r c.
Proof.
  intros Hd Hd' Hsheet. apply check_by_cell. unfold doc_cell.
  rewrite (doc_sheet_lookup _ _ _ Hd), (doc_sheet_lookup _ _ _ Hd').
  by rewrite (find_sheet_first name before sheet after Hsheet),
    (find_sheet_first name before sheet after' Hsheet).
Qed.

(** X14: a sheet entry without a title, met before the sheet that is looked for,
    makes the answer [False] whatever the later entries hold. *)
Theorem untitled_entry_hides_sheet d name before bad after r c :
  d !! lit "sheets" = Some (PList (before ++ bad :: after)) ->
  Forall (fun s => exists title,
            sheet_title s = Some title /\ py_eq_str title name = false) before ->
  sheet_title bad = None ->
  check_cell_strikethrough (PDict d) name r c = false.
Proof.
  intros Hd Hbefore Hbad.
  assert (Hfind : find_sheet name (before ++ bad :: after) = None).
  { clear Hd.
    induction Hbefore as [|s before (title & Htitle & Hne) _ IH]; cbn [app find_sheet].
    - rewrite Hbad. reflexivity.
    - rewrite Htitle. cbn [mbind option_bind]. by rewrite Hne. }
  destruct (check_cell_strikethrough (PDict d) name r c) eqn:E; [|done].
  apply check_true_located in E as (cell & Hcell & _).
  unfold doc_cell in Hcell. by rewrite (doc_sheet_lookup _ _ _ Hd), Hfind in Hcell.
Qed.

(** X15: a negative row index is not out of bounds: it is counted from the last
    recorded row. *)
Theorem negative_row_counts_from_end doc name sheet rows r c :
  doc_sheet doc name = Some sheet -> sheet_rows sheet = Some rows ->
  - len rows <= r < 0 ->
  check_cell_strikethrough doc name r c
  = check_cell_strikethrough doc name (len rows + r) c.
Proof.
  intros Hsheet Hrows Hr. apply check_by_cell. unfold doc_cell, sheet_cell.
  rewrite Hsheet. cbn. rewrite Hrows. cbn. f_equal.
  unfold py_index, len in *.
  destruct (0 <=? r) eqn:E1; [lia|].
  destruct (0 <=? Z.of_nat (length rows) + r) eqn:E2; [|lia]. done.
Qed.

End InspectorScan.

(** ** Further properties of the analyzer *)

Section CountConverse.

Variables (c0 : pychar) (sub' : pystr).
Local Abbreviation sub := (c0 :: sub').

(** A counted occurrence is an occurrence of the pattern in the text. *)
Lemma count_scan_found s :
  (1 <= count_scan sub 0 s)%nat ->
  exists before rest,
    s = before ++ sub ++ rest /\ count_scan sub 0 s = S (count_scan sub 0 rest).
Proof.
  induction s as [|x s IH]; [cbn; lia|]. rewrite count_scan_cons.
  destruct (is_prefix sub (x :: s)) eqn:E.
  - intros _. apply is_prefix_spec in E as [rest E]. exists [], rest.
    split; [done|]. injection E as -> ->. by rewrite drop_app_length.
  - intros (before & rest & -> & Hcount)%IH. by exists (x :: before), rest.
Qed.

Lemma count_scan_two_found s :
  (2 <= count_scan sub 0 s)%nat ->
  exists a b c, s = a ++ sub ++ b ++ sub ++ c.
Proof.
  intros Hs. destruct (count_scan_found s) as (a & rest & -> & Hcount); [lia|].
  destruct (count_scan_found rest) as (b & c & -> & _); [lia|]. by exists a, b, c.
Qed.

End CountConverse.

Section AnalyzerMarkers.

Context `{StrUpper}.

Lemma lstrip_elem x s : x ∈ lstrip s -> x ∈ s.
Proof.
  destruct (lstrip_spec s) as (spaces & Hs & _). intros Hx. rewrite Hs.
  apply elem_of_app. by right.
Qed.

Lemma strip_elem x s : x ∈ strip s -> x ∈ s.
Proof.
  unfold strip. rewrite elem_of_reverse. intros Hx%lstrip_elem.
  rewrite elem_of_reverse in Hx. by apply lstrip_elem.
Qed.

(** X16: the analyzer answers [True] exactly on a non-empty text whose
    uppercased and trimmed form holds a marker of the vocabulary, or that
    itself holds two ["~~"] one after the other. *)
Theorem analyzer_true_iff t :
  analyze_text_with_manual_indicators (PStr t) = true <->
  t <> []
  /\ ((exists indicator before after,
         indicator ∈ completion_indicators
         /\ strip (str_upper t) = before ++ indicator ++ after)
      \/ exists a b c, t = a ++ lit "~~" ++ b ++ lit "~~" ++ c).
Proof.
  unfold analyze_text_with_manual_indicators. cbn [is_str negb orb py_truthy].
  destruct t as [|x t].
  { cbn. split; [done|]. by intros [? _]. }
  cbn [length Nat.eqb negb]. set (text := x :: t).
  destruct (existsb _ completion_indicators) eqn:Hvoc.
  - split; [|done]. intros _. split; [done|]. left.
    apply existsb_exists in Hvoc as (indicator & Hin & (before & after & Hs)%str_in_spec).
    exists indicator, before, after. by rewrite list_elem_of_In.
  - assert (Hnone : ~ exists indicator before after,
              indicator ∈ completion_indicators
              /\ strip (str_upper text) = before ++ indicator ++ after).
    { intros (indicator & before & after & Hin & Hs).
      assert (existsb (fun indicator => str_in indicator (strip (str_upper text)))
                completion_indicators = true); [|congruence].
      apply existsb_exists. exists indicator. rewrite <- list_elem_of_In.
      split; [done|]. apply str_in_spec. eauto. }
    change (lit "~~") with [126%N; 126%N]. cbn [str_count].
    destruct (2 <=? count_scan [126%N; 126%N] 0 text)%nat eqn:Hcount.
    + split; [|done]. intros _. split; [done|]. right.
      apply Nat.leb_le in Hcount. by apply count_scan_two_found.
    + split; [done|]. intros [_ [Hvoc'|(a & b & c & Ht)]]; [done|].
      apply Nat.leb_gt in Hcount.
      pose proof (count_scan_two 126%N [126%N] a b c) as Htwo.
      subst text. unfold pystr, pychar in *. rewrite Ht in Hcount. lia.
Qed.

(** X17: the two glyph markers of the vocabulary hold a lower-case letter (code
    point 250), which no uppercased text holds: they never match. *)
Theorem glyph_markers_never_match t glyph :
  (forall s, 250%N ∉ str_upper s) ->
  glyph = [0x201A; 0xFA; 0xEC]%N \/ glyph = [0x201A; 0xFA; 0xF3]%N ->
  glyph ∈ completion_indicators /\ str_in glyph (strip (str_upper t)) = false.
Proof.
  intros Hupper Hglyph. split.
  { apply list_elem_of_In. destruct Hglyph as [-> | ->]; cbn; tauto. }
  destruct (str_in glyph (strip (str_upper t))) eqn:E; [|done]. exfalso.
  apply str_in_spec in E as (before & after & Hs). apply (Hupper t), strip_elem.
  rewrite Hs. apply elem_of_app. right. apply elem_of_app. left.
  destruct Hglyph as [-> | ->]; apply list_elem_of_In; cbn; tauto.
Qed.

End AnalyzerMarkers.

Lemma latin1_upper_no_250 s : 250%N ∉ @str_upper latin1_upper s.
Proof.
  unfold str_upper, latin1_upper. intros (c & Hc & _)%list_elem_of_fmap.
  destruct ((97 <=? c) && (c <=? 122))%N eqn:E1.
  - apply andb_true_iff in E1 as [?%N.leb_le ?%N.leb_le]. lia.
  - destruct ((224 <=? c) && (c <=? 254) && negb (c =? 247))%N eqn:E2.
    + apply andb_true_iff in E2 as [[?%N.leb_le ?%N.leb_le]%andb_true_iff _]. lia.
    + subst c. discriminate E2.
Qed.

Lemma glyph_markers_never_match_witness :
  [0x201A; 0xFA; 0xEC]%N ∈ completion_indicators
  /\ str_in [0x201A; 0xFA; 0xEC]%N
       (strip (@str_upper latin1_upper [0x201A; 0xFA; 0xEC; 32; 100; 111; 110; 101]%N))
     = false.
Proof.
  apply (@glyph_markers_never_match latin1_upper _ _ latin1_upper_no_250).
  left. reflexivity.
Defined.

(** ** [extract_sheet_id_from_url] *)

Section Split.

Variables (c0 : pychar) (sub' : pystr).
Local Abbreviation sep := (c0 :: sub').

Lemma split_scan_skip k cur s :
  split_scan sep k cur s = split_scan sep 0 cur (drop k s).
Proof.
  revert k. induction s as [|x rest IH]; intros k.
  - by rewrite drop_nil.
  - destruct k as [|k]; [done|]. cbn [split_scan drop]. apply IH.
Qed.

(** [split] gives one piece more than [count] counts occurrences. *)
Lemma length_split_scan k cur s :
  length (split_scan sep k cur s) = S (count_scan sep k s).
Proof.
  revert k cur. induction s as [|x rest IH]; intros k cur; [done|].
  cbn [split_scan count_scan]. destruct k as [|k]; [|apply IH].
  destruct (is_prefix sep (x :: rest)); [|apply IH]. cbn [length]. by rewrite IH.
Qed.

(** The first piece starts with what was being read and goes on with a
    prefix of the text. *)
Lemma split_scan_head cur s :
  exists piece more rest,
    split_scan sep 0 cur s = (cur ++ piece) :: more /\ s = piece ++ rest.
Proof.
  revert cur. induction s as [|x s IH]; intros cur; cbn [split_scan].
  - exists [], [], []. by rewrite app_nil_r.
  - destruct (is_prefix sep (x :: s)).
    + exists [], (split_scan sep (length sep - 1) [] s), (x :: s). by rewrite app_nil_r.
    + destruct (IH (cur ++ [x])) as (piece & more & rest & -> & ->).
      exists (x :: piece), more, rest. by rewrite <- app_assoc.
Qed.

(** Up to the first occurrence of the separator the text is one piece. *)
Lemma split_scan_first cur before rest :
  forallb (fun k => negb (is_prefix sep (drop k (before ++ sep ++ rest))))
    (seq 0 (length before)) = true ->
  split_scan sep 0 cur (before ++ sep ++ rest)
  = (cur ++ before) :: split_scan sep 0 [] rest.
Proof.
  revert cur. induction before as [|x before IH]; intros cur Hfirst.
  - rewrite app_nil_r. change ([] ++ sep ++ rest) with (c0 :: (sub' ++ rest)).
    cbn [split_scan]. change (c0 :: (sub' ++ rest)) with (sep ++ rest).
    rewrite is_prefix_app, split_scan_skip.
    replace (length sep - 1)%nat with (length sub') by (cbn [length]; lia).
    by rewrite drop_app_length.
  - change ((x :: before) ++ sep ++ rest) with (x :: (before ++ sep ++ rest)) in *.
    rewrite forallb_forall in Hfirst.
    assert (Hx : is_prefix sep (x :: (before ++ sep ++ rest)) = false).
    { apply negb_true_iff, (Hfirst 0%nat), in_seq. cbn [length]. lia. }
    cbn [split_scan]. rewrite Hx, IH, <- app_assoc; [done|].
    apply forallb_forall. intros k Hk. apply (Hfirst (S k)).
    apply in_seq in Hk. apply in_seq. cbn [length]. lia.
Qed.

(** A stretch of text without the first character of the separator is read
    into the current piece. *)
Lemma split_scan_plain cur plain rest :
  c0 ∉ plain ->
  split_scan sep 0 cur (plain ++ rest) = split_scan sep 0 (cur ++ plain) rest.
Proof.
  revert cur. induction plain as [|x plain IH]; intros cur Hplain.
  - by rewrite app_nil_r.
  - apply not_elem_of_cons in Hplain as [Hx Hplain].
    change ((x :: plain) ++ rest) with (x :: (plain ++ rest)). cbn [split_scan is_prefix].
    rewrite (proj2 (N.eqb_neq c0 x)) by done. cbn [andb].
    rewrite IH by done. by rewrite <- app_assoc.
Qed.

End Split.

Section SheetId.

Lemma str_in_count sep s :
  sep <> [] -> str_in sep s = true -> (1 <= count_scan sep 0 s)%nat.
Proof.
  intros Hsep (before & after & ->)%str_in_spec. destruct sep as [|c0 sub']; [done|].
  pose proof (count_scan_occurrence c0 sub' before after). lia.
Qed.

Lemma str_split_cons c0 sub' s :
  str_split (c0 :: sub') s = Ok (split_scan (c0 :: sub') 0 [] s).
Proof. reflexivity. Qed.

Lemma list_item_0 {A} (x : A) l : list_item (x :: l) 0 = Ok x.
Proof. reflexivity. Qed.

Lemma list_item_1 {A} (x y : A) l : list_item (x :: y :: l) 1 = Ok y.
Proof. reflexivity. Qed.

Lemma url_marker_cons : url_marker = 47%N :: lit "spreadsheets/d/".
Proof. reflexivity. Qed.

Lemma slash_cons : lit "/" = 47%N :: [].
Proof. reflexivity. Qed.

(** The first piece of a split at ["/"] holds no ["/"]. *)
Lemma split_slash_head cur s :
  47%N ∉ cur ->
  exists piece more, split_scan [47%N] 0 cur s = piece :: more /\ 47%N ∉ piece.
Proof.
  revert cur. induction s as [|x s IH]; intros cur Hcur; cbn [split_scan is_prefix].
  - by exists cur, [].
  - destruct (47 =? x)%N eqn:E; cbn [andb].
    + by exists cur, (split_scan [47%N] (length [47%N] - 1) [] s).
    + apply IH. apply N.eqb_neq in E. rewrite elem_of_app, list_elem_of_singleton.
      intros [?|?]; [done|congruence].
Qed.

(** X18: [extract_sheet_id_from_url] never raises: it answers [None] exactly when
    the address does not hold ["/spreadsheets/d/"], and otherwise an
    identifier that holds no ["/"]. *)
Theorem extract_sheet_id_total url :
  exists answer,
    extract_sheet_id_from_url url = Ok answer
    /\ (answer = None <->
        ~ exists before after, url = before ++ url_marker ++ after)
    /\ (forall sheet_id, answer = Some sheet_id -> 47%N ∉ sheet_id).
Proof.
  unfold extract_sheet_id_from_url. destruct (str_in url_marker url) eqn:Hin.
  - pose proof (str_in_count url_marker url ltac:(done) Hin) as Hcount.
    rewrite url_marker_cons in *. rewrite str_split_cons. cbn [mbind res_bind].
    pose proof (length_split_scan 47%N (lit "spreadsheets/d/") 0 [] url) as Hlen.
    destruct (split_scan _ 0 [] url) as [|first [|after parts]] eqn:Hparts;
      cbn [length] in Hlen; [lia|unfold pystr, pychar in *; lia|].
    rewrite list_item_1. cbn [mbind res_bind].
    rewrite slash_cons, str_split_cons. cbn [mbind res_bind].
    destruct (split_slash_head [] after) as (piece & more & Hsplit & Hpiece).
    { apply not_elem_of_nil. }
    unfold pystr, pychar in *. rewrite Hsplit, list_item_0. cbn [mbind res_bind]. eexists. split; [reflexivity|]. split.
    + split; [done|]. intros Hnot. exfalso. apply Hnot. by apply str_in_spec.
    + by intros ? [= <-].
  - exists None. split; [done|]. split; [|done]. split; [|done].
    intros _ Hex%str_in_spec. congruence.
Qed.

(** X19: from an address of the usual form, with the identifier between the
    first ["/spreadsheets/d/"] and the next ["/"] or the end, the identifier
    is read back. *)
Theorem extract_sheet_id_round_trip before sheet_id rest :
  let url := before ++ url_marker ++ sheet_id ++ rest in
  forallb (fun k => negb (is_prefix url_marker (drop k url))) (seq 0 (length before))
  = true ->
  47%N ∉ sheet_id ->
  rest = [] \/ head rest = Some 47%N ->
  extract_sheet_id_from_url url = Ok (Some sheet_id).
Proof.
  intros url Hfirst Hid Hrest. unfold extract_sheet_id_from_url.
  assert (Hin : str_in url_marker url = true).
  { apply str_in_spec. by exists before, (sheet_id ++ rest). }
  rewrite Hin. subst url. rewrite url_marker_cons in *. rewrite str_split_cons.
  cbn [mbind res_bind]. rewrite (split_scan_first _ _ [] before) by exact Hfirst.
  rewrite split_scan_plain by exact Hid.
  destruct (split_scan_head 47%N (lit "spreadsheets/d/") ([] ++ sheet_id) rest)
    as (piece & more & rest' & -> & Hpiece).
  rewrite list_item_1. cbn [app mbind res_bind].
  rewrite slash_cons, str_split_cons. cbn [mbind res_bind].
  pose proof (split_scan_plain 47%N [] [] sheet_id piece Hid) as Hplain.
  unfold pystr, pychar in *. rewrite Hplain. cbn [app].
  assert (Hhead : exists more', split_scan [47%N] 0 sheet_id piece = sheet_id :: more').
  { destruct piece as [|x piece]; [by exists []|].
    destruct Hrest as [->|Hrest]; [done|]. rewrite Hpiece in Hrest.
    injection Hrest as ->. cbn. eauto. }
  destruct Hhead as [more' ->]. by rewrite list_item_0.
Qed.

End SheetId.

Lemma extract_sheet_id_round_trip_witness :
  extract_sheet_id_from_url
    (lit "https://docs.google.com" ++ url_marker ++ lit "1AbC_dEf-123" ++ lit "/edit#gid=0")
  = Ok (Some (lit "1AbC_dEf-123")).
Proof.
  apply (extract_sheet_id_round_trip (lit "https://docs.google.com") (lit "1AbC_dEf-123")
           (lit "/edit#gid=0")).
  - vm_compute. reflexivity.
  - vm_compute. intros Hin. repeat (apply elem_of_cons in Hin as [Hin|Hin]; [discriminate|]).
    by apply not_elem_of_nil in Hin.
  - right. reflexivity.
Defined.

(** ** [get_sheet_data_with_formatting] *)

Section SheetData.

Lemma sheet_property_title sheet : sheet_property sheet (lit "title") = sheet_title sheet.
Proof. reflexivity. Qed.

Lemma sheet_property_Some sheet key v :
  sheet_property sheet key = Some v ->
  exists p, py_getitem_str sheet (lit "properties") = Ok p
            /\ py_getitem_str p key = Ok v.
Proof.
  unfold sheet_property. destruct sheet; try discriminate. simpl.
  destruct (d !! lit "properties") as [p|]; [|discriminate]. simpl.
  destruct p; try discriminate. simpl. intros Hv.
  eexists. split; [reflexivity|]. simpl. by rewrite Hv.
Qed.

Lemma sheet_property_Ok sheet key p v :
  py_getitem_str sheet (lit "properties") = Ok p ->
  py_getitem_str p key = Ok v ->
  sheet_property sheet key = Some v.
Proof.
  unfold sheet_property. destruct sheet; try discriminate. simpl.
  destruct (d !! lit "properties"); [|discriminate]. intros [= ->].
  destruct p; try discriminate. simpl.
  destruct (d0 !! key); [|discriminate]. by intros [= ->].
Qed.

(** Without the named sheet the loop leaves [sheet_id] at [None] or raises. *)
Lemma sheet_id_loop_absent name entries :
  find_sheet name entries = None ->
  forall sheet_id, sheet_id_loop name entries = Ok sheet_id -> sheet_id = PNone.
Proof.
  induction entries as [|s rest IH]; cbn [find_sheet sheet_id_loop].
  { by intros _ ? [= <-]. }
  intros Hfind sheet_id (p & Hp & (title & Ht & Hloop)%bind_Ok)%bind_Ok.
  rewrite (sheet_title_Ok _ _ _ Hp Ht) in Hfind. cbn in Hfind.
  destruct (py_eq_str title name); [done|]. by apply IH.
Qed.

Lemma sheet_id_loop_found name entries sheet_id :
  sheet_id_loop name entries = Ok sheet_id -> is_none sheet_id = false ->
  exists sheet,
    find_sheet name entries = Some sheet
    /\ sheet_property sheet (lit "sheetId") = Some sheet_id.
Proof.
  induction entries as [|s rest IH]; cbn [find_sheet sheet_id_loop].
  { by intros [= <-]. }
  intros (p & Hp & (title & Ht & Hloop)%bind_Ok)%bind_Ok Hnone.
  rewrite (sheet_title_Ok _ _ _ Hp Ht). cbn [mbind option_bind].
  destruct (py_eq_str title name); [|by apply IH].
  apply bind_Ok in Hloop as (p' & Hp' & Hid). exists s. split; [done|].
  by eapply sheet_property_Ok.
Qed.

Lemma sheet_id_loop_sheet name entries sheet sheet_id :
  find_sheet name entries = Some sheet ->
  sheet_property sheet (lit "sheetId") = Some sheet_id ->
  sheet_id_loop name entries = Ok sheet_id.
Proof.
  induction entries as [|s rest IH]; [discriminate|]. cbn [find_sheet sheet_id_loop].
  destruct (sheet_title s) as [t|] eqn:Ht; [|discriminate].
  apply sheet_title_Some in Ht as (p & Hp & Ht). rewrite Hp. cbn [mbind res_bind option_bind].
  rewrite Ht. cbn [mbind res_bind].
  destruct (py_eq_str t name); [|by apply IH].
  intros [= ->] (p' & Hp' & Hid)%sheet_property_Some.
  rewrite Hp in Hp'. injection Hp' as <-. by rewrite Hid.
Qed.

Lemma sheet_id_loop_not_list name v items sheet_id :
  as_list v = None -> py_iter v = Ok items ->
  sheet_id_loop name items = Ok sheet_id -> sheet_id = PNone.
Proof.
  intros Hv Hitems. assert (Hstr : Forall (fun x => exists t, x = PStr t) items).
  { destruct v; try discriminate; injection Hitems as <-; apply Forall_forall;
      intros x; rewrite list_elem_of_fmap; intros (? & -> & _); eauto. }
  destruct items as [|x rest]; [by intros [= <-]|].
  apply Forall_cons in Hstr as [[t ->] _]. discriminate.
Qed.

(** X20: when the spreadsheet does not have the named sheet, the function returns
    [(None, None)], whatever the other requests would answer. *)
Theorem absent_sheet_gives_none service spreadsheet_id sheet_name d entries :
  spreadsheets_get service spreadsheet_id = Ok (PDict d) ->
  d !! lit "sheets" = Some (PList entries) ->
  find_sheet sheet_name entries = None ->
  get_sheet_data_with_formatting service spreadsheet_id sheet_name = (PNone, PNone).
Proof.
  intros Hget Hsheets Hfind.
  unfold get_sheet_data_with_formatting, get_sheet_data_try.
  rewrite Hget. cbn [mbind res_bind py_getitem_str]. rewrite Hsheets.
  cbn [mbind res_bind py_iter].
  destruct (sheet_id_loop sheet_name entries) as [sheet_id|] eqn:Hloop; [|done].
  by rewrite (sheet_id_loop_absent _ _ Hfind _ Hloop).
Qed.

(** X21: the function returns the values and the formatting document that the
    service holds for the named sheet, a sheet identifier 0 included; and a
    pair other than [(None, None)] is returned only in that way. *)
Theorem sheet_data_returned service spreadsheet_id sheet_name values formatting :
  (sheet_data_available service spreadsheet_id sheet_name values formatting ->
   get_sheet_data_with_formatting service spreadsheet_id sheet_name
   = (values, formatting))
  /\ (get_sheet_data_with_formatting service spreadsheet_id sheet_name
      = (values, formatting) ->
      (values, formatting) <> (PNone, PNone) ->
      sheet_data_available service spreadsheet_id sheet_name values formatting).
Proof.
  unfold get_sheet_data_with_formatting, get_sheet_data_try. split.
  - intros (d & entries & sheet & sheet_id & vd
            & Hget & Hsheets & Hfind & Hid & Hnone & Hvalues & -> & Hgrid).
    rewrite Hget. cbn [mbind res_bind py_getitem_str]. rewrite Hsheets.
    cbn [mbind res_bind py_iter]. rewrite (sheet_id_loop_sheet _ _ _ _ Hfind Hid).
    cbn [mbind res_bind]. rewrite Hnone, Hvalues. cbn [mbind res_bind py_get].
    by rewrite Hgrid.
  - destruct (spreadsheets_get service spreadsheet_id) as [spreadsheet|] eqn:Hget;
      cbn [mbind res_bind]; [|congruence].
    destruct (py_getitem_str spreadsheet (lit "sheets")) as [sheets|] eqn:Hsheets;
      cbn [mbind res_bind]; [|congruence].
    destruct (py_iter sheets) as [items|] eqn:Hitems; cbn [mbind res_bind]; [|congruence].
    destruct (sheet_id_loop sheet_name items) as [sheet_id|] eqn:Hloop;
      cbn [mbind res_bind]; [|congruence].
    destruct (is_none sheet_id) eqn:Hnone; [congruence|].
    destruct (values_get service spreadsheet_id (sheet_name ++ lit "!A:Z"))
      as [values_result|] eqn:Hvalues; cbn [mbind res_bind]; [|congruence].
    destruct (py_get values_result (lit "values") (PList [])) as [v|] eqn:Hv;
      cbn [mbind res_bind]; [|congruence].
    destruct (spreadsheets_get_grid service spreadsheet_id [sheet_name ++ lit "!A:Z"])
      as [f|] eqn:Hgrid; cbn [mbind res_bind]; [|congruence].
    intros [= <- <-] _.
    destruct spreadsheet; try discriminate Hsheets. cbn in Hsheets.
    destruct (d !! lit "sheets") as [sheets'|] eqn:Hd; [|discriminate Hsheets].
    injection Hsheets as ->.
    destruct (as_list sheets) as [entries|] eqn:Hlist.
    2:{ rewrite (sheet_id_loop_not_list _ _ _ _ Hlist Hitems Hloop) in Hnone.
        discriminate. }
    destruct sheets; try discriminate Hlist. injection Hlist as ->.
    injection Hitems as <-.
    apply sheet_id_loop_found in Hloop as (sheet & Hfind & Hid); [|done].
    apply py_get_Ok in Hv as (vd & -> & ->).
    by exists d, entries, sheet, sheet_id, vd.
Qed.

End SheetData.

Lemma absent_sheet_gives_none_witness :
  get_sheet_data_with_formatting sample_service (lit "id") (lit "Other") = (PNone, PNone).
Proof.
  eapply absent_sheet_gives_none; [reflexivity|vm_compute; reflexivity|].
  vm_compute. reflexivity.
Defined.

Lemma sheet_data_returned_witness :
  get_sheet_data_with_formatting sample_service (lit "id") (lit "Questions")
  = (PList [PList [PStr (lit "Group4")]], one_cell_document plain_cell).
Proof.
  apply (proj1 (sheet_data_returned sample_service (lit "id") (lit "Questions") _ _)).
  eexists _, _, _, (PInt 0), _.
  split; [reflexivity|]. split; [vm_compute; reflexivity|].
  split; [vm_compute; reflexivity|]. split; [vm_compute; reflexivity|].
  split; [reflexivity|]. split; [reflexivity|]. split; [vm_compute; reflexivity|].
  reflexivity.
Defined.

(** ** [main] *)

Section Main.

Context `{StrUpper}.

Lemma unusable_is_error now url creds source :
  source_unusable source ->
  status (parse_group4_questions now url creds source) = error.
Proof.
  intros Hsource. unfold parse_group4_questions.
  destruct (negb (py_truthy (from_option PStr PNone creds))); [done|].
  destruct source as [e|[[|header rows]|] doc]; try done.
  cbn in Hsource. by rewrite Hsource.
Qed.

(** Without the sheet address or the credentials [main] raises before it
    writes or sends anything. *)
Theorem main_requires_configuration now env source post :
  env_truthy (SHEET_URL env) = false \/ env_truthy (GOOGLE_CREDENTIALS env) = false ->
  exists msg, main now env source post = ([], Raise (ValueError msg)).
Proof.
  unfold main. intros [Hurl|Hcreds].
  - rewrite Hurl. cbn [negb]. eauto.
  - destruct (env_truthy (SHEET_URL env)); cbn [negb]; [|eauto].
    rewrite Hcreds. cbn [negb]. eauto.
Qed.

(** X22: when the source fails or the column is missing, [main] writes the error
    result and then raises [KeyError]: no summary is written and no
    notification is sent. *)
Theorem main_stops_on_error_result now env source post :
  env_truthy (SHEET_URL env) = true -> env_truthy (GOOGLE_CREDENTIALS env) = true ->
  source_unusable source ->
  exists r,
    status r = error
    /\ main now env source post
       = ([WroteResult r], Raise (KeyError (PStr (lit "todo_count")))).
Proof.
  intros Hurl Hcreds Hsource. unfold main. rewrite Hurl, Hcreds. cbn [negb].
  pose proof (unusable_is_error now (default [] (SHEET_URL env)) (GOOGLE_CREDENTIALS env)
                source Hsource) as Hstatus.
  pose proof Hstatus as [msg Hr]%parse_error_inv.
  eexists. split; [exact Hstatus|]. cbv zeta. by rewrite Hr.
Qed.

(** X23: on a success result [main] ends normally: it writes the result, then
    the summary with the counts of the lists, and, when a webhook is set,
    sends the notification after both and writes the summary again with the
    delivery status, which a failed delivery only records. *)
Theorem main_on_success now env source post :
  env_truthy (SHEET_URL env) = true -> env_truthy (GOOGLE_CREDENTIALS env) = true ->
  let r := parse_group4_questions now (default [] (SHEET_URL env))
             (GOOGLE_CREDENTIALS env) source in
  status r = success ->
  exists s p,
    main_summary r = Ok s /\ build_payload r = Ok p
    /\ summary_done_count s = len (done_questions r)
    /\ summary_todo_count s = len (todo_questions r)
    /\ summary_total_questions s = len (done_questions r) + len (todo_questions r)
    /\ main now env source post
       = ([WroteResult r; WroteSummary s None]
          ++ (if env_truthy (DISCORD_WEBHOOK_URL env)
              then [Posted p; WroteSummary s (Some (post p))]
              else []),
          Ok tt).
Proof.
  intros Hurl Hcreds r Hstatus.
  destruct (parse_success_counts now _ _ source Hstatus) as (Hd & Ht & Htotal).
  fold r in Hd, Ht, Htotal.
  destruct (build_payload_success r _ _ Hstatus Hd Ht) as (color & main' & _ & _ & _ & Hp).
  unfold main. rewrite Hurl, Hcreds. cbn [negb]. cbv zeta. fold r.
  unfold main_summary. rewrite Hd, Ht. cbn [key mbind res_bind].
  eexists _, _. split; [reflexivity|]. split; [exact Hp|].
  cbn [summary_done_count summary_todo_count summary_total_questions].
  split; [done|]. split; [done|]. split; [done|].
  destruct (env_truthy (DISCORD_WEBHOOK_URL env)) eqn:Hhook; [|done].
  unfold send_discord_notification.
  assert (Hwebhook : py_truthy (PStr (default [] (DISCORD_WEBHOOK_URL env))) = true).
  { unfold env_truthy in Hhook. by destruct (DISCORD_WEBHOOK_URL env). }
  by rewrite Hwebhook, Hp.
Qed.

End Main.

Lemma main_requires_configuration_witness :
  exists msg,
    @main ascii_upper (lit "now")
      {| SHEET_URL := None; GOOGLE_CREDENTIALS := Some (lit "{}");
         DISCORD_WEBHOOK_URL := None |}
      (SourceData (Some sample_grid) (one_cell_document user_struck_cell))
      (fun _ => true)
    = ([], Raise (ValueError msg)).
Proof. apply (@main_requires_configuration ascii_upper). left. reflexivity. Defined.

Lemma main_stops_on_error_result_witness :
  exists r,
    status r = error
    /\ @main ascii_upper (lit "now") sample_env
         (SourceData (Some no_column_grid) (one_cell_document user_struck_cell))
         (fun _ => true)
       = ([WroteResult r], Raise (KeyError (PStr (lit "todo_count")))).
Proof.
  apply (@main_stops_on_error_result ascii_upper); [reflexivity|reflexivity|].
  vm_compute. reflexivity.
Defined.

Lemma main_on_success_witness :
  let r := @parse_group4_questions ascii_upper (lit "now") (lit "sheet") (Some (lit "{}"))
             (SourceData (Some sample_grid) (one_cell_document user_struck_cell)) in
  exists s p,
    main_summary r = Ok s /\ build_payload r = Ok p
    /\ summary_done_count s = len (done_questions r)
    /\ summary_todo_count s = len (todo_questions r)
    /\ summary_total_questions s = len (done_questions r) + len (todo_questions r)
    /\ @main ascii_upper (lit "now") sample_env
         (SourceData (Some sample_grid) (one_cell_document user_struck_cell))
         (fun _ => false)
       = ([WroteResult r; WroteSummary s None]
          ++ [Posted p; WroteSummary s (Some false)],
          Ok tt).
Proof.
  apply (@main_on_success ascii_upper (lit "now") sample_env
           (SourceData (Some sample_grid) (one_cell_document user_struck_cell))
           (fun _ => false)); [reflexivity|reflexivity|].
  vm_compute. reflexivity.
Defined.

(** ** Sample evaluations of the further properties *)

Lemma first_titled_sheet_decides_witness :
  check_cell_strikethrough
    (PDict (sheets_dict [sheet_entry (lit "Other") user_struck_cell;
                         sheet_entry (lit "Questions") plain_cell;
                         sheet_entry (lit "Questions") user_struck_cell]))
    (lit "Questions") 1 0
  = check_cell_strikethrough
      (PDict (sheets_dict [sheet_entry (lit "Other") user_struck_cell;
                           sheet_entry (lit "Questions") plain_cell]))
      (lit "Questions") 1 0.
Proof.
  apply (first_titled_sheet_decides _ _ (lit "Questions")
           [sheet_entry (lit "Other") user_struck_cell]
           (sheet_entry (lit "Questions") plain_cell)
           [sheet_entry (lit "Questions") user_struck_cell] []).
  - apply lookup_singleton_eq.
  - apply lookup_singleton_eq.
  - eexists. split; vm_compute; reflexivity.
Defined.

Lemma untitled_entry_hides_sheet_witness :
  check_cell_strikethrough
    (PDict (sheets_dict [sheet_entry (lit "Other") plain_cell; dict_of [];
                         sheet_entry (lit "Questions") user_struck_cell]))
    (lit "Questions") 1 0
  = false.
Proof.
  apply (untitled_entry_hides_sheet _ (lit "Questions")
           [sheet_entry (lit "Other") plain_cell] (dict_of [])
           [sheet_entry (lit "Questions") user_struck_cell]).
  - apply lookup_singleton_eq.
  - repeat constructor. eexists. split; vm_compute; reflexivity.
  - vm_compute. reflexivity.
Defined.

Lemma negative_row_counts_from_end_witness :
  check_cell_strikethrough (one_cell_document user_struck_cell) (lit "Questions") (-1) 0
  = check_cell_strikethrough (one_cell_document user_struck_cell) (lit "Questions") 1 0.
Proof.
  eapply (negative_row_counts_from_end (one_cell_document user_struck_cell)
            (lit "Questions") _ [dict_of []; dict_of [("values", PList [user_struck_cell])]%string]).
  - vm_compute. reflexivity.
  - vm_compute. reflexivity.
  - unfold len. cbn [length]. lia.
Defined.

Lemma todo_embeds_numbered_witness :
  exists p color t,
    build_payload (sample_run fifty_grid) = Ok p
    /\ select_color (sample_run fifty_grid) = Ok color
    /\ todo_count (sample_run fifty_grid) = Some t
    /\ tail (embeds p)
       = match todo_blocks (sample_run fifty_grid) with
         | [block] => [todo_embed color t block]
         | blocks => numbered_embeds color 1 blocks
         end.
Proof.
  apply (todo_embeds_numbered (sample_run fifty_grid)).
  - vm_compute. reflexivity.
  - vm_compute. eexists. reflexivity.
  - vm_compute. eexists. reflexivity.
  - vm_compute. discriminate.
Defined.

Lemma block_beyond_ceiling_is_one_entry_witness :
  Forall (fun block =>
            len block <= 1000
            \/ exists iq, iq ∈ enumerate 1 (todo_questions (sample_run long_entry_grid))
                          /\ block = question_line iq)
    (todo_blocks (sample_run long_entry_grid)).
Proof.
  apply (block_beyond_ceiling_is_one_entry (sample_run long_entry_grid)).
  - vm_compute. reflexivity.
  - vm_compute. eexists. reflexivity.
  - vm_compute. eexists. reflexivity.
  - vm_compute. discriminate.
Defined.

Lemma long_first_entry_empty_block_witness :
  exists first blocks,
    todo_blocks (sample_run long_entry_grid) = [] :: first :: blocks
    /\ is_prefix
         (question_line
            (1, {| row_number := 2; text := repeat 97%N 1000; is_crossed_out := false;
                   formatting_source := manual_indicators |})) first = true.
Proof.
  apply (long_first_entry_empty_block (sample_run long_entry_grid) _ []).
  - vm_compute. reflexivity.
  - vm_compute. eexists. reflexivity.
  - vm_compute. eexists. reflexivity.
  - vm_compute. reflexivity.
  - vm_compute. reflexivity.
Defined.

Lemma error_payload_witness :
  exists msg,
    message (sample_run no_column_grid) = Some msg
    /\ build_payload (sample_run no_column_grid)
       = Ok {| embeds := [error_embed (lit "2024-01-01T00:00:00") msg]; content := None |}.
Proof. apply (@error_payload ascii_upper). vm_compute. reflexivity. Defined.

Lemma attention_alert_witness :
  exists p main,
    build_payload (sample_run sample_grid) = Ok p /\ head (embeds p) = Some main
    /\ (todo_questions (sample_run sample_grid) <> [] ->
        head (embed_fields main)
        = Some {| name := alert_name;
                  value := lit "**" ++ str_of_Z (len (todo_questions (sample_run sample_grid)))
                           ++ lit " question(s) need attention!**";
                  inline := false |})
    /\ (todo_questions (sample_run sample_grid) = [] ->
        Forall (fun f => name f <> alert_name) (embed_fields main)).
Proof. apply (@attention_alert ascii_upper). vm_compute. reflexivity. Defined.
